(** * Public issue-collaboration views of the space app

    A shallow embedding of [apiserver/plane/space/views/issue.py]: the
    comment, reaction and vote view sets that sit behind a project's
    deploy board, the public issue retrieve endpoint and the public
    issue listing endpoint.

    The database is a record of tables, each a finite map from primary
    key to row.  A handler is a function in a state-and-exception monad
    over that record: an ORM call either returns or raises
    [DoesNotExist] / [MultipleObjectsReturned], and what was written
    before an exception stays written.  Every write and every
    [issue_activity.delay] call is appended to a trace, so that the
    order of effects inside one handler can be stated. *)

From stdpp Require Import gmap strings list fin_maps sorting pretty.
From Stdlib Require Import ZArith.

Local Open Scope Z_scope.

(** ** JSON values and payloads *)

(** A scalar JSON value, as found in [request.data] and in serializer
    output. *)
Inductive jval :=
| JNull
| JBool (b : bool)
| JInt (z : Z)
| JStr (s : string).

#[global] Instance jval_eq_dec : EqDecision jval.
Proof. solve_decision. Defined.

(** A Python dict with string keys: [request.data], [serializer.data],
    the literal dicts handed to [json.dumps]. *)
Abbreviation jobject := (gmap string jval).

(** Primary keys and user ids (UUIDs in the source). [str(id)] is
    [pretty id]. *)
Abbreviation pk := positive.

Definition str_id (k : pk) : jval := JStr (pretty k).

(** ** Rows *)

Record ProjectDeployBoard := {
  pdb_workspace : string;
  pdb_project : pk;
  pdb_comments : bool;
  pdb_reactions : bool;
  pdb_votes : bool;
}.

Record ProjectMember := {
  pm_workspace : string;
  pm_project : pk;
  pm_member : pk;
  pm_is_active : bool;
}.

Record ProjectPublicMember := {
  ppm_project : pk;
  ppm_member : pk;
}.

Record IssueComment := {
  ic_workspace : string;
  ic_project : pk;
  ic_issue : pk;
  ic_actor : pk;
  ic_access : string;
  ic_created_at : Z;
  (* the content fields the serializer writes (comment_html, ...) *)
  ic_attrs : jobject;
}.

Record IssueReaction := {
  ir_workspace : string;
  ir_project : pk;
  ir_issue : pk;
  ir_actor : pk;
  ir_reaction : string;
  ir_created_at : Z;
}.

Record CommentReaction := {
  cr_workspace : string;
  cr_project : pk;
  cr_comment : pk;
  cr_actor : pk;
  cr_reaction : string;
  cr_created_at : Z;
}.

Record IssueVote := {
  iv_workspace : string;
  iv_project : pk;
  iv_issue : pk;
  iv_actor : pk;
  iv_vote : jval;
}.

Record Issue := {
  i_workspace : string;
  i_project : pk;
  i_is_draft : bool;
  i_archived_at : option Z;
  i_parent : option pk;
  i_created_at : Z;
  i_name : string;
  (* status of the issue's inbox record, [None] without one *)
  i_inbox_status : option Z;
}.

Record IssueLink := { il_issue : pk }.

Record IssueAttachment := { ia_issue : pk }.

(** ** Activity events and the effect trace *)

(** The keyword arguments of one [issue_activity.delay(...)] call.
    [json.dumps d] of a dict is kept as the dict itself. *)
Record ActivityEvent := {
  ev_type : string;
  ev_requested_data : option jobject;
  ev_actor_id : string;
  ev_issue_id : option string;
  ev_project_id : string;
  ev_current_instance : option jobject;
  ev_epoch : Z;
}.

Inductive Model :=
| MProjectDeployBoard
| MProjectMember
| MProjectPublicMember
| MIssue
| MIssueLink
| MIssueAttachment
| MIssueComment
| MIssueReaction
| MCommentReaction
| MIssueVote.

#[global] Instance Model_eq_dec : EqDecision Model.
Proof. solve_decision. Defined.

Inductive Effect :=
| Inserted (m : Model) (k : pk)
| Saved (m : Model) (k : pk)
| Deleted (m : Model) (k : pk)
| Delayed (e : ActivityEvent).

(** ** The store *)

Record Store := {
  deploy_boards : gmap pk ProjectDeployBoard;
  project_members : gmap pk ProjectMember;
  public_members : gmap pk ProjectPublicMember;
  issues : gmap pk Issue;
  issue_links : gmap pk IssueLink;
  issue_attachments : gmap pk IssueAttachment;
  comments : gmap pk IssueComment;
  issue_reactions : gmap pk IssueReaction;
  comment_reactions : gmap pk CommentReaction;
  votes : gmap pk IssueVote;
  trace : list Effect;
}.

Definition set_public_members (t : gmap pk ProjectPublicMember) (s : Store) : Store :=
  {| deploy_boards := deploy_boards s; project_members := project_members s;
     public_members := t; issues := issues s; issue_links := issue_links s;
     issue_attachments := issue_attachments s; comments := comments s;
     issue_reactions := issue_reactions s;
     comment_reactions := comment_reactions s; votes := votes s;
     trace := trace s |}.

Definition set_comments (t : gmap pk IssueComment) (s : Store) : Store :=
  {| deploy_boards := deploy_boards s; project_members := project_members s;
     public_members := public_members s; issues := issues s;
     issue_links := issue_links s; issue_attachments := issue_attachments s;
     comments := t; issue_reactions := issue_reactions s;
     comment_reactions := comment_reactions s; votes := votes s;
     trace := trace s |}.

Definition set_issue_reactions (t : gmap pk IssueReaction) (s : Store) : Store :=
  {| deploy_boards := deploy_boards s; project_members := project_members s;
     public_members := public_members s; issues := issues s;
     issue_links := issue_links s; issue_attachments := issue_attachments s;
     comments := comments s; issue_reactions := t;
     comment_reactions := comment_reactions s; votes := votes s;
     trace := trace s |}.

Definition set_comment_reactions (t : gmap pk CommentReaction) (s : Store) : Store :=
  {| deploy_boards := deploy_boards s; project_members := project_members s;
     public_members := public_members s; issues := issues s;
     issue_links := issue_links s; issue_attachments := issue_attachments s;
     comments := comments s; issue_reactions := issue_reactions s;
     comment_reactions := t; votes := votes s;
     trace := trace s |}.

Definition set_votes (t : gmap pk IssueVote) (s : Store) : Store :=
  {| deploy_boards := deploy_boards s; project_members := project_members s;
     public_members := public_members s; issues := issues s;
     issue_links := issue_links s; issue_attachments := issue_attachments s;
     comments := comments s; issue_reactions := issue_reactions s;
     comment_reactions := comment_reactions s; votes := t;
     trace := trace s |}.

Definition log (e : Effect) (s : Store) : Store :=
  {| deploy_boards := deploy_boards s; project_members := project_members s;
     public_members := public_members s; issues := issues s;
     issue_links := issue_links s; issue_attachments := issue_attachments s;
     comments := comments s; issue_reactions := issue_reactions s;
     comment_reactions := comment_reactions s; votes := votes s;
     trace := trace s ++ [e] |}.

(** The events handed to [issue_activity.delay], oldest first. *)
Definition delayed (s : Store) : list ActivityEvent :=
  omap (λ e, match e with Delayed ev => Some ev | _ => None end) (trace s).

(** A table: which model it holds and where it lives in the store.
    Read-only tables have the identity as setter. *)
Record Table (A : Type) := {
  tbl_model : Model;
  tbl_rows : Store → gmap pk A;
  tbl_put : gmap pk A → Store → Store;
}.
Arguments tbl_model {A} _.
Arguments tbl_rows {A} _ _.
Arguments tbl_put {A} _ _ _.

Definition ProjectDeployBoards : Table ProjectDeployBoard :=
  {| tbl_model := MProjectDeployBoard; tbl_rows := deploy_boards;
     tbl_put := λ _ s, s |}.
Definition ProjectMembers : Table ProjectMember :=
  {| tbl_model := MProjectMember; tbl_rows := project_members;
     tbl_put := λ _ s, s |}.
Definition ProjectPublicMembers : Table ProjectPublicMember :=
  {| tbl_model := MProjectPublicMember; tbl_rows := public_members;
     tbl_put := set_public_members |}.
Definition Issues : Table Issue :=
  {| tbl_model := MIssue; tbl_rows := issues; tbl_put := λ _ s, s |}.
Definition IssueComments : Table IssueComment :=
  {| tbl_model := MIssueComment; tbl_rows := comments;
     tbl_put := set_comments |}.
Definition IssueReactions : Table IssueReaction :=
  {| tbl_model := MIssueReaction; tbl_rows := issue_reactions;
     tbl_put := set_issue_reactions |}.
Definition CommentReactions : Table CommentReaction :=
  {| tbl_model := MCommentReaction; tbl_rows := comment_reactions;
     tbl_put := set_comment_reactions |}.
Definition IssueVotes : Table IssueVote :=
  {| tbl_model := MIssueVote; tbl_rows := votes; tbl_put := set_votes |}.

(** ** The handler monad *)

Inductive exn :=
| DoesNotExist (m : Model)
| MultipleObjectsReturned (m : Model).

#[global] Instance exn_eq_dec : EqDecision exn.
Proof. solve_decision. Defined.

(** The model whose manager raised. *)
Definition exn_model (e : exn) : Model :=
  match e with
  | DoesNotExist m | MultipleObjectsReturned m => m
  end.

Definition M (A : Type) : Type := Store → (exn + A) * Store.

#[global] Instance M_ret : MRet M := λ A x s, (inr x, s).
#[global] Instance M_bind : MBind M := λ A B f m s,
  match m s with
  | (inr x, s') => f x s'
  | (inl e, s') => (inl e, s')
  end.

Definition raise {A} (e : exn) : M A := λ s, (inl e, s).
Definition reads {A} (f : Store → A) : M A := λ s, (inr (f s), s).
Definition effect (e : Effect) : M unit := λ s, (inr tt, log e s).

(** ** ORM calls *)

(** [Model.objects.filter(...)]: the rows that satisfy the lookup. *)
Definition objects_filter {A} (T : Table A) (P : pk * A → bool) (s : Store)
  : gmap pk A :=
  filter (λ kv, P kv = true) (tbl_rows T s).

(** [Model.objects.filter(...).exists()]. *)
Definition objects_exists {A} (T : Table A) (P : pk * A → bool) : M bool :=
  λ s, (inr (bool_decide (objects_filter T P s ≠ ∅)), s).

(** [Model.objects.get(...)]: the one row that satisfies the lookup. *)
Definition objects_get {A} (T : Table A) (P : pk * A → bool) : M (pk * A) :=
  λ s, match map_to_list (objects_filter T P s) with
       | [] => (inl (DoesNotExist (tbl_model T)), s)
       | [kv] => (inr kv, s)
       | _ :: _ :: _ => (inl (MultipleObjectsReturned (tbl_model T)), s)
       end.

(** [Model.objects.create(...)] (also [serializer.save()] without an
    instance): insert under a fresh primary key. *)
Definition objects_create {A} (T : Table A) (row : A) : M (pk * A) :=
  λ s, let k := fresh (dom (tbl_rows T s)) in
       (inr (k, row),
        log (Inserted (tbl_model T) k) (tbl_put T (<[k := row]> (tbl_rows T s)) s)).

(** [Model.objects.get_or_create(...)]: the instance and whether it was
    created. *)
Definition objects_get_or_create {A} (T : Table A) (P : pk * A → bool)
    (row : A) : M (pk * A * bool) :=
  λ s, match map_to_list (objects_filter T P s) with
       | [] => (kv ← objects_create T row; mret (kv, true)) s
       | [kv] => (inr (kv, false), s)
       | _ :: _ :: _ => (inl (MultipleObjectsReturned (tbl_model T)), s)
       end.

(** [instance.save()] of an instance that was read from the table. *)
Definition instance_save {A} (T : Table A) (k : pk) (row : A) : M unit :=
  λ s, (inr tt,
        log (Saved (tbl_model T) k) (tbl_put T (<[k := row]> (tbl_rows T s)) s)).

(** [instance.delete()]. *)
Definition instance_delete {A} (T : Table A) (k : pk) : M unit :=
  λ s, (inr tt,
        log (Deleted (tbl_model T) k) (tbl_put T (delete k (tbl_rows T s)) s)).

(** [issue_activity.delay(...)]. *)
Definition issue_activity_delay (e : ActivityEvent) : M unit :=
  effect (Delayed e).

(** [try: body except Model.DoesNotExist: handler]. *)
Definition try_except_DoesNotExist {A} (body : M A) (m : Model)
    (handler : M A) : M A :=
  λ s, match body s with
       | (inl (DoesNotExist m'), s') =>
           if decide (m' = m) then handler s' else (inl (DoesNotExist m'), s')
       | r => r
       end.

(** [queryset.order_by("created_at")] and [order_by("-created_at")]. *)
Definition order_by_asc {A} (key : A → Z) (l : list A) : list A :=
  @merge_sort A (λ x y, key x ≤ key y) (λ x y, decide (key x ≤ key y)) l.
Definition order_by_desc {A} (key : A → Z) (l : list A) : list A :=
  @merge_sort A (λ x y, key y ≤ key x) (λ x y, decide (key y ≤ key x)) l.

(** ** Requests and responses *)

(** What a handler reads from [request]: the authenticated user, the
    parsed body and the clock at the time of handling. *)
Record Request := {
  user : pk;
  data : jobject;
  now : Z;
}.

(** The codes of [rest_framework.status] the views answer with, and
    403, which none of them uses. *)
Inductive Status :=
| HTTP_200_OK
| HTTP_201_CREATED
| HTTP_204_NO_CONTENT
| HTTP_400_BAD_REQUEST
| HTTP_403_FORBIDDEN
| HTTP_404_NOT_FOUND.

#[global] Instance Status_eq_dec : EqDecision Status.
Proof. solve_decision. Defined.

Record Response := {
  body : option jobject;
  status : Status;
}.

Definition error_response (msg : string) (st : Status) : Response :=
  {| body := Some {[ "error" := JStr msg ]}; status := st |}.

(** The status a handler answered with, [None] when it raised. *)
Definition answered (r : exn + Response) : option Status :=
  match r with
  | inr resp => Some (status resp)
  | inl _ => None
  end.

(** ** Collaborators outside this file *)

(** What the views use from modules that are not part of this file:
    the workspace a project-scoped row gets when it is saved, the
    default of [IssueVote.vote], the validation of the three
    serializers ([inl] the errors, [inr] the validated data), and the
    filter backends of the comment view set. *)
Record Externals := {
  project_workspace : pk → string;
  issue_vote_default : jval;
  comment_is_valid : bool → jobject → jobject + jobject;
  issue_reaction_is_valid : jobject → jobject + string;
  comment_reaction_is_valid : jobject → jobject + string;
  comment_filter_backends : pk * IssueComment → bool;
}.

(** Modelled from the spec: the field mapping of [IssueCommentSerializer]
    is missing; a comment serializes to its id, its scope, its author
    and access tag, and its content fields. *)
Definition IssueCommentSerializer_data (k : pk) (c : IssueComment) : jobject :=
  <["id" := str_id k]>
  (<["project" := str_id (ic_project c)]>
  (<["issue" := str_id (ic_issue c)]>
  (<["actor" := str_id (ic_actor c)]>
  (<["access" := JStr (ic_access c)]>
  (<["created_at" := JInt (ic_created_at c)]> (ic_attrs c)))))).

(** Modelled from the spec: the field mapping of [IssueReactionSerializer]
    is missing. *)
Definition IssueReactionSerializer_data (k : pk) (r : IssueReaction) : jobject :=
  <["id" := str_id k]>
  (<["project" := str_id (ir_project r)]>
  (<["issue" := str_id (ir_issue r)]>
  (<["actor" := str_id (ir_actor r)]>
  (<["reaction" := JStr (ir_reaction r)]> ∅)))).

(** Modelled from the spec: the field mapping of
    [CommentReactionSerializer] is missing. *)
Definition CommentReactionSerializer_data (k : pk) (r : CommentReaction) : jobject :=
  <["id" := str_id k]>
  (<["project" := str_id (cr_project r)]>
  (<["comment" := str_id (cr_comment r)]>
  (<["actor" := str_id (cr_actor r)]>
  (<["reaction" := JStr (cr_reaction r)]> ∅)))).

(** Modelled from the spec: the field mapping of [IssueVoteSerializer]
    is missing. *)
Definition IssueVoteSerializer_data (k : pk) (v : IssueVote) : jobject :=
  <["id" := str_id k]>
  (<["project" := str_id (iv_project v)]>
  (<["issue" := str_id (iv_issue v)]>
  (<["actor" := str_id (iv_actor v)]>
  (<["vote" := iv_vote v]> ∅)))).

(** [str(x)] of a value read from a row or from the path. *)
Definition str_jval (v : jval) : string :=
  match v with
  | JNull => "None"
  | JBool true => "True"
  | JBool false => "False"
  | JInt z => pretty z
  | JStr s => s
  end.

(** [issue_vote.vote = x] on an instance. *)
Definition set_vote (x : jval) (v : IssueVote) : IssueVote :=
  {| iv_workspace := iv_workspace v; iv_project := iv_project v;
     iv_issue := iv_issue v; iv_actor := iv_actor v; iv_vote := x |}.

(** ** The views *)

Section Views.
Variable E : Externals.

(** [ProjectDeployBoard.objects.get(workspace__slug=slug,
    project_id=project_id)]. *)
Definition get_project_deploy_board (slug : string) (project_id : pk)
  : M (pk * ProjectDeployBoard) :=
  objects_get ProjectDeployBoards
    (λ kv, bool_decide (pdb_workspace kv.2 = slug)
           && bool_decide (pdb_project kv.2 = project_id)).

(** The lines every create handler repeats after it has written its
    row: "Add the user for workspace tracking". *)
Definition track_public_member (request : Request) (project_id : pk)
  : M unit :=
  is_member ← objects_exists ProjectMembers
    (λ kv, bool_decide (pm_project kv.2 = project_id)
           && bool_decide (pm_member kv.2 = user request)
           && pm_is_active kv.2);
  if negb is_member then
    _ ← objects_get_or_create ProjectPublicMembers
      (λ kv, bool_decide (ppm_project kv.2 = project_id)
             && bool_decide (ppm_member kv.2 = user request))
      {| ppm_project := project_id; ppm_member := user request |};
    mret tt
  else mret tt.

(** *** IssueCommentPublicViewSet *)

Definition comment_get_queryset (uid : option pk) (slug : string)
    (project_id issue_id : pk) : M (list (pk * IssueComment * bool)) :=
  try_except_DoesNotExist
    ('(_, project_deploy_board) ← get_project_deploy_board slug project_id;
     if pdb_comments project_deploy_board then
       reads (λ s,
         let is_member :=
           bool_decide (objects_filter ProjectMembers
             (λ kv, bool_decide (pm_workspace kv.2 = slug)
                    && bool_decide (pm_project kv.2 = project_id)
                    && bool_decide (Some (pm_member kv.2) = uid)
                    && pm_is_active kv.2) s ≠ ∅) in
         let rows :=
           map_to_list (objects_filter IssueComments
             (λ kv, bool_decide (ic_workspace kv.2 = slug)
                    && bool_decide (ic_issue kv.2 = issue_id)
                    && bool_decide (ic_access kv.2 = "EXTERNAL")) s) in
         order_by_asc (λ r, ic_created_at r.1.2)
           ((λ kv, (kv, is_member)) <$>
              filter (λ kv, comment_filter_backends E kv = true) rows))
     else mret [])
    MProjectDeployBoard
    (mret []).

Definition comment_create (request : Request) (slug : string)
    (project_id issue_id : pk) : M Response :=
  '(_, project_deploy_board) ← get_project_deploy_board slug project_id;
  if negb (pdb_comments project_deploy_board) then
    mret (error_response "Comments are not enabled for this project"
            HTTP_400_BAD_REQUEST)
  else
    match comment_is_valid E false (data request) with
    | inr validated_data =>
        '(k, comment) ← objects_create IssueComments
          {| ic_workspace := project_workspace E project_id;
             ic_project := project_id;
             ic_issue := issue_id;
             ic_actor := user request;
             ic_access := "EXTERNAL";
             ic_created_at := now request;
             ic_attrs := validated_data |};
        issue_activity_delay
          {| ev_type := "comment.activity.created";
             ev_requested_data := Some (IssueCommentSerializer_data k comment);
             ev_actor_id := pretty (user request);
             ev_issue_id := Some (pretty issue_id);
             ev_project_id := pretty project_id;
             ev_current_instance := None;
             ev_epoch := now request |};;
        track_public_member request project_id;;
        mret {| body := Some (IssueCommentSerializer_data k comment);
                status := HTTP_201_CREATED |}
    | inl errors =>
        mret {| body := Some errors; status := HTTP_400_BAD_REQUEST |}
    end.

Definition comment_partial_update (request : Request) (slug : string)
    (project_id issue_id pk_ : pk) : M Response :=
  '(_, project_deploy_board) ← get_project_deploy_board slug project_id;
  if negb (pdb_comments project_deploy_board) then
    mret (error_response "Comments are not enabled for this project"
            HTTP_400_BAD_REQUEST)
  else
    '(k, comment) ← objects_get IssueComments
      (λ kv, bool_decide (ic_workspace kv.2 = slug)
             && bool_decide (kv.1 = pk_)
             && bool_decide (ic_actor kv.2 = user request));
    match comment_is_valid E true (data request) with
    | inr validated_data =>
        (* serializer.save(): each validated field is set on the
           instance the serializer was built with, which is the object
           [comment] names, and the instance is saved. *)
        let comment :=
          {| ic_workspace := ic_workspace comment;
             ic_project := ic_project comment;
             ic_issue := ic_issue comment;
             ic_actor := ic_actor comment;
             ic_access := ic_access comment;
             ic_created_at := ic_created_at comment;
             ic_attrs := validated_data ∪ ic_attrs comment |} in
        instance_save IssueComments k comment;;
        issue_activity_delay
          {| ev_type := "comment.activity.updated";
             ev_requested_data := Some (data request);
             ev_actor_id := pretty (user request);
             ev_issue_id := Some (pretty issue_id);
             ev_project_id := pretty project_id;
             ev_current_instance := Some (IssueCommentSerializer_data k comment);
             ev_epoch := now request |};;
        mret {| body := Some (IssueCommentSerializer_data k comment);
                status := HTTP_200_OK |}
    | inl errors =>
        mret {| body := Some errors; status := HTTP_400_BAD_REQUEST |}
    end.

(** [comment.delete()] removes the comment row; the rows that hang on
    the comment are left to the database layer, whose model
    declarations are outside this file. *)
Definition comment_destroy (request : Request) (slug : string)
    (project_id issue_id pk_ : pk) : M Response :=
  '(_, project_deploy_board) ← get_project_deploy_board slug project_id;
  if negb (pdb_comments project_deploy_board) then
    mret (error_response "Comments are not enabled for this project"
            HTTP_400_BAD_REQUEST)
  else
    '(k, comment) ← objects_get IssueComments
      (λ kv, bool_decide (ic_workspace kv.2 = slug)
             && bool_decide (kv.1 = pk_)
             && bool_decide (ic_project kv.2 = project_id)
             && bool_decide (ic_actor kv.2 = user request));
    issue_activity_delay
      {| ev_type := "comment.activity.deleted";
         ev_requested_data := Some {[ "comment_id" := str_id pk_ ]};
         ev_actor_id := pretty (user request);
         ev_issue_id := Some (pretty issue_id);
         ev_project_id := pretty project_id;
         ev_current_instance := Some (IssueCommentSerializer_data k comment);
         ev_epoch := now request |};;
    instance_delete IssueComments k;;
    mret {| body := None; status := HTTP_204_NO_CONTENT |}.

(** *** IssueReactionPublicViewSet *)

Definition issue_reaction_get_queryset (slug : string)
    (project_id issue_id : pk) : M (list (pk * IssueReaction)) :=
  try_except_DoesNotExist
    ('(_, project_deploy_board) ← get_project_deploy_board slug project_id;
     if pdb_reactions project_deploy_board then
       reads (λ s,
         order_by_desc (λ kv, ir_created_at kv.2)
           (map_to_list (objects_filter IssueReactions
              (λ kv, bool_decide (ir_workspace kv.2 = slug)
                     && bool_decide (ir_project kv.2 = project_id)
                     && bool_decide (ir_issue kv.2 = issue_id)) s)))
     else mret [])
    MProjectDeployBoard
    (mret []).

Definition issue_reaction_create (request : Request) (slug : string)
    (project_id issue_id : pk) : M Response :=
  '(_, project_deploy_board) ← get_project_deploy_board slug project_id;
  if negb (pdb_reactions project_deploy_board) then
    mret (error_response "Reactions are not enabled for this project board"
            HTTP_400_BAD_REQUEST)
  else
    match issue_reaction_is_valid E (data request) with
    | inr reaction =>
        '(k, issue_reaction) ← objects_create IssueReactions
          {| ir_workspace := project_workspace E project_id;
             ir_project := project_id;
             ir_issue := issue_id;
             ir_actor := user request;
             ir_reaction := reaction;
             ir_created_at := now request |};
        track_public_member request project_id;;
        issue_activity_delay
          {| ev_type := "issue_reaction.activity.created";
             ev_requested_data := Some (data request);
             ev_actor_id := pretty (user request);
             ev_issue_id := Some (pretty issue_id);
             ev_project_id := pretty project_id;
             ev_current_instance := None;
             ev_epoch := now request |};;
        mret {| body := Some (IssueReactionSerializer_data k issue_reaction);
                status := HTTP_201_CREATED |}
    | inl errors =>
        mret {| body := Some errors; status := HTTP_400_BAD_REQUEST |}
    end.

Definition issue_reaction_destroy (request : Request) (slug : string)
    (project_id issue_id : pk) (reaction_code : string) : M Response :=
  '(_, project_deploy_board) ← get_project_deploy_board slug project_id;
  if negb (pdb_reactions project_deploy_board) then
    mret (error_response "Reactions are not enabled for this project board"
            HTTP_400_BAD_REQUEST)
  else
    '(k, issue_reaction) ← objects_get IssueReactions
      (λ kv, bool_decide (ir_workspace kv.2 = slug)
             && bool_decide (ir_issue kv.2 = issue_id)
             && bool_decide (ir_reaction kv.2 = reaction_code)
             && bool_decide (ir_actor kv.2 = user request));
    issue_activity_delay
      {| ev_type := "issue_reaction.activity.deleted";
         ev_requested_data := None;
         ev_actor_id := pretty (user request);
         ev_issue_id := Some (pretty issue_id);
         ev_project_id := pretty project_id;
         ev_current_instance :=
           Some (<["reaction" := JStr reaction_code]>
                  (<["identifier" := str_id k]> ∅));
         ev_epoch := now request |};;
    instance_delete IssueReactions k;;
    mret {| body := None; status := HTTP_204_NO_CONTENT |}.

(** *** CommentReactionPublicViewSet *)

Definition comment_reaction_get_queryset (slug : string)
    (project_id comment_id : pk) : M (list (pk * CommentReaction)) :=
  try_except_DoesNotExist
    ('(_, project_deploy_board) ← get_project_deploy_board slug project_id;
     if pdb_reactions project_deploy_board then
       reads (λ s,
         order_by_desc (λ kv, cr_created_at kv.2)
           (map_to_list (objects_filter CommentReactions
              (λ kv, bool_decide (cr_workspace kv.2 = slug)
                     && bool_decide (cr_project kv.2 = project_id)
                     && bool_decide (cr_comment kv.2 = comment_id)) s)))
     else mret [])
    MProjectDeployBoard
    (mret []).

Definition comment_reaction_create (request : Request) (slug : string)
    (project_id comment_id : pk) : M Response :=
  '(_, project_deploy_board) ← get_project_deploy_board slug project_id;
  if negb (pdb_reactions project_deploy_board) then
    mret (error_response "Reactions are not enabled for this board"
            HTTP_400_BAD_REQUEST)
  else
    match comment_reaction_is_valid E (data request) with
    | inr reaction =>
        '(k, comment_reaction) ← objects_create CommentReactions
          {| cr_workspace := project_workspace E project_id;
             cr_project := project_id;
             cr_comment := comment_id;
             cr_actor := user request;
             cr_reaction := reaction;
             cr_created_at := now request |};
        track_public_member request project_id;;
        issue_activity_delay
          {| ev_type := "comment_reaction.activity.created";
             ev_requested_data := Some (data request);
             ev_actor_id := pretty (user request);
             ev_issue_id := None;
             ev_project_id := pretty project_id;
             ev_current_instance := None;
             ev_epoch := now request |};;
        mret {| body := Some (CommentReactionSerializer_data k comment_reaction);
                status := HTTP_201_CREATED |}
    | inl errors =>
        mret {| body := Some errors; status := HTTP_400_BAD_REQUEST |}
    end.

Definition comment_reaction_destroy (request : Request) (slug : string)
    (project_id comment_id : pk) (reaction_code : string) : M Response :=
  '(_, project_deploy_board) ← get_project_deploy_board slug project_id;
  if negb (pdb_reactions project_deploy_board) then
    mret (error_response "Reactions are not enabled for this board"
            HTTP_400_BAD_REQUEST)
  else
    '(k, comment_reaction) ← objects_get CommentReactions
      (λ kv, bool_decide (cr_project kv.2 = project_id)
             && bool_decide (cr_workspace kv.2 = slug)
             && bool_decide (cr_comment kv.2 = comment_id)
             && bool_decide (cr_reaction kv.2 = reaction_code)
             && bool_decide (cr_actor kv.2 = user request));
    issue_activity_delay
      {| ev_type := "comment_reaction.activity.deleted";
         ev_requested_data := None;
         ev_actor_id := pretty (user request);
         ev_issue_id := None;
         ev_project_id := pretty project_id;
         ev_current_instance :=
           Some (<["reaction" := JStr reaction_code]>
                  (<["identifier" := str_id k]>
                  (<["comment_id" := str_id comment_id]> ∅)));
         ev_epoch := now request |};;
    instance_delete CommentReactions k;;
    mret {| body := None; status := HTTP_204_NO_CONTENT |}.

(** *** IssueVotePublicViewSet *)

Definition vote_get_queryset (slug : string) (project_id issue_id : pk)
  : M (list (pk * IssueVote)) :=
  try_except_DoesNotExist
    ('(_, project_deploy_board) ← get_project_deploy_board slug project_id;
     if pdb_votes project_deploy_board then
       reads (λ s,
         map_to_list (objects_filter IssueVotes
           (λ kv, bool_decide (iv_issue kv.2 = issue_id)
                  && bool_decide (iv_workspace kv.2 = slug)
                  && bool_decide (iv_project kv.2 = project_id)) s))
     else mret [])
    MProjectDeployBoard
    (mret []).

(** The lookup of [IssueVote.objects.get_or_create] in [create]. *)
Definition vote_key (actor_id project_id issue_id : pk)
  : pk * IssueVote → bool :=
  λ kv, bool_decide (iv_actor kv.2 = actor_id)
        && bool_decide (iv_project kv.2 = project_id)
        && bool_decide (iv_issue kv.2 = issue_id).

(** The row keeps the payload's value as it is given. What the column
    does to a value that is not an integer (reject it, or convert it) is
    decided by the model declaration, outside this file; statements
    about the stored value are made for integer votes. *)
Definition vote_create (request : Request) (slug : string)
    (project_id issue_id : pk) : M Response :=
  '(k, issue_vote, _) ← objects_get_or_create IssueVotes
    (vote_key (user request) project_id issue_id)
    {| iv_workspace := project_workspace E project_id;
       iv_project := project_id;
       iv_issue := issue_id;
       iv_actor := user request;
       iv_vote := issue_vote_default E |};
  track_public_member request project_id;;
  let issue_vote :=
    set_vote (default (JInt 1) (data request !! "vote")) issue_vote in
  instance_save IssueVotes k issue_vote;;
  issue_activity_delay
    {| ev_type := "issue_vote.activity.created";
       ev_requested_data := Some (data request);
       ev_actor_id := pretty (user request);
       ev_issue_id := Some (pretty issue_id);
       ev_project_id := pretty project_id;
       ev_current_instance := None;
       ev_epoch := now request |};;
  mret {| body := Some (IssueVoteSerializer_data k issue_vote);
          status := HTTP_201_CREATED |}.

Definition vote_destroy (request : Request) (slug : string)
    (project_id issue_id : pk) : M Response :=
  '(k, issue_vote) ← objects_get IssueVotes
    (λ kv, bool_decide (iv_workspace kv.2 = slug)
           && bool_decide (iv_project kv.2 = project_id)
           && bool_decide (iv_issue kv.2 = issue_id)
           && bool_decide (iv_actor kv.2 = user request));
  issue_activity_delay
    {| ev_type := "issue_vote.activity.deleted";
       ev_requested_data := None;
       ev_actor_id := pretty (user request);
       ev_issue_id := Some (pretty issue_id);
       ev_project_id := pretty project_id;
       ev_current_instance :=
         Some (<["vote" := JStr (str_jval (iv_vote issue_vote))]>
                (<["identifier" := str_id k]> ∅));
       ev_epoch := now request |};;
  instance_delete IssueVotes k;;
  mret {| body := None; status := HTTP_204_NO_CONTENT |}.

(** *** IssueRetrievePublicEndpoint *)

(** Modelled from the spec: the field mapping of [IssuePublicSerializer]
    is missing. *)
Definition IssuePublicSerializer_data (k : pk) (i : Issue) : jobject :=
  <["id" := str_id k]>
  (<["name" := JStr (i_name i)]>
  (<["project" := str_id (i_project i)]> ∅)).

Definition issue_retrieve (slug : string) (project_id issue_id : pk)
  : M Response :=
  '(k, issue) ← objects_get Issues
    (λ kv, bool_decide (i_workspace kv.2 = slug)
           && bool_decide (i_project kv.2 = project_id)
           && bool_decide (kv.1 = issue_id));
  mret {| body := Some (IssuePublicSerializer_data k issue);
          status := HTTP_200_OK |}.

End Views.

(** ** ProjectIssuesPublicEndpoint *)

(** An issue as a queryset yields it: the row and the annotations that
    were attached to the queryset ([None]: not annotated). *)
Record IssueRow := {
  row_id : pk;
  row_issue : Issue;
  link_count : option Z;
  attachment_count : option Z;
  sub_issues_count : option Z;
}.

(** What the endpoint uses from outside this file: the restriction of
    the [Issue.issue_objects] manager, [issue_filters] as the predicate
    its lookups denote, the [get_queryset] the view inherits,
    [order_issue_queryset] and [issue_queryset_grouper]. *)
Record ListingExternals := {
  issue_objects : pk * Issue → bool;
  issue_filters : gmap string string → IssueRow → bool;
  get_queryset : Store → list IssueRow;
  order_issue_queryset : list IssueRow → string → list IssueRow;
  issue_queryset_grouper : list IssueRow → option string → list IssueRow;
}.

(** What [get] returns: the 404 response, or the call of
    [self.paginate] with the queryset, the grouping field and the count
    filter it was given. *)
Inductive ListingResult :=
| NotPublished (r : Response)
| Paginate (queryset : list IssueRow) (group_by_field_name : option string)
    (count_filter : option (Issue → bool)).

Section Listing.
Variable L : ListingExternals.

(** A correlated [Count] subquery without grouping: one row, holding
    the number of matching children. *)
Definition subquery_count {A} (P : pk * A → bool) (t : gmap pk A) : Z :=
  Z.of_nat (size (filter (λ kv, P kv = true) t)).

(** The queryset the handler composes first ([cycle_id] is left
    out). *)
Definition composed_issue_queryset (slug : string) (project_id : pk)
    (s : Store) : list IssueRow :=
  (λ kv : pk * Issue,
     {| row_id := kv.1;
        row_issue := kv.2;
        link_count := Some (subquery_count
          (λ l : pk * IssueLink, bool_decide (il_issue l.2 = kv.1))
          (issue_links s));
        attachment_count := Some (subquery_count
          (λ a : pk * IssueAttachment, bool_decide (ia_issue a.2 = kv.1))
          (issue_attachments s));
        sub_issues_count := Some (subquery_count
          (λ c : pk * Issue, issue_objects L c
                             && bool_decide (i_parent c.2 = Some kv.1))
          (issues s)) |})
  <$> map_to_list (objects_filter Issues
        (λ kv, bool_decide (i_project kv.2 = project_id)
               && bool_decide (i_workspace kv.2 = slug)
               && i_is_draft kv.2) s).

(** The [count_filter] of the grouped pagination. *)
Definition grouped_count_filter (i : Issue) : bool :=
  (bool_decide (i_inbox_status i = Some 1)
   || bool_decide (i_inbox_status i = Some (-1))
   || bool_decide (i_inbox_status i = Some 2)
   || bool_decide (i_inbox_status i = None))
  && bool_decide (i_archived_at i ≠ None)
  && i_is_draft i.

Definition project_issues_get (GET : gmap string string) (slug : string)
    (project_id : pk) (s : Store) : ListingResult :=
  if negb (bool_decide (objects_filter ProjectDeployBoards
             (λ kv, bool_decide (pdb_workspace kv.2 = slug)
                    && bool_decide (pdb_project kv.2 = project_id)) s ≠ ∅))
  then NotPublished (error_response "Project is not published"
                       HTTP_404_NOT_FOUND)
  else
    let filters := issue_filters L GET in
    let order_by_param := default "-created_at" (GET !! "order_by") in
    let issue_queryset := composed_issue_queryset slug project_id s in
    let order_by_param := default "-created_at" (GET !! "order_by") in
    let issue_queryset :=
      filter (λ r, filters r = true) (get_queryset L s) in
    let issue_queryset := order_issue_queryset L issue_queryset order_by_param in
    let group_by := GET !! "group_by" in
    let issue_queryset := issue_queryset_grouper L issue_queryset group_by in
    match group_by with
    | None | Some "" => Paginate issue_queryset None None
    | Some field => Paginate issue_queryset (Some field)
                      (Some grouped_count_filter)
    end.

End Listing.

(** ** Vocabulary of the statements *)

(** The deploy board of a (workspace, project) pair: [published] when
    exactly one board row carries the pair, [unpublished] when none
    does. *)
Definition board_of (slug : string) (project_id : pk) (b : ProjectDeployBoard)
  : Prop :=
  pdb_workspace b = slug ∧ pdb_project b = project_id.

Definition published (s : Store) (slug : string) (project_id : pk)
    (b : ProjectDeployBoard) : Prop :=
  ∃ k, deploy_boards s !! k = Some b ∧ board_of slug project_id b ∧
       ∀ k' b', deploy_boards s !! k' = Some b' →
                board_of slug project_id b' → k' = k.

Definition unpublished (s : Store) (slug : string) (project_id : pk) : Prop :=
  ∀ k b, deploy_boards s !! k = Some b → ¬ board_of slug project_id b.

(** The four sub-resources and the board flag each one sits behind. *)
Inductive SubResource :=
| SComment
| SIssueReaction
| SCommentReaction
| SVote.

#[global] Instance SubResource_eq_dec : EqDecision SubResource.
Proof. solve_decision. Defined.

Definition capability (res : SubResource) (b : ProjectDeployBoard) : bool :=
  match res with
  | SComment => pdb_comments b
  | SIssueReaction | SCommentReaction => pdb_reactions b
  | SVote => pdb_votes b
  end.

Definition resource_model (res : SubResource) : Model :=
  match res with
  | SComment => MIssueComment
  | SIssueReaction => MIssueReaction
  | SCommentReaction => MCommentReaction
  | SVote => MIssueVote
  end.

Definition gate_closed (res : SubResource) (s : Store) (slug : string)
    (project_id : pk) : Prop :=
  unpublished s slug project_id ∨
  ∃ b, published s slug project_id b ∧ capability res b = false.

Definition gate_passes (res : SubResource) (s : Store) (slug : string)
    (project_id : pk) : Prop :=
  ∃ b, published s slug project_id b ∧ capability res b = true.

(** The list action of each view set, reduced to the primary keys of
    the rows of its queryset, in order. [target] is the issue, or the
    comment for comment reactions. *)
Definition list_ids (E : Externals) (res : SubResource) (uid : option pk)
    (slug : string) (project_id target : pk) : M (list pk) :=
  match res with
  | SComment =>
      rows ← comment_get_queryset E uid slug project_id target;
      mret ((λ r : pk * IssueComment * bool, r.1.1) <$> rows)
  | SIssueReaction =>
      rows ← issue_reaction_get_queryset slug project_id target;
      mret (fst <$> rows)
  | SCommentReaction =>
      rows ← comment_reaction_get_queryset slug project_id target;
      mret (fst <$> rows)
  | SVote =>
      rows ← vote_get_queryset slug project_id target;
      mret (fst <$> rows)
  end.

(** The mutating routes of the four view sets. *)
Inductive Action :=
| CommentCreate (request : Request) (slug : string) (project_id issue_id : pk)
| CommentPartialUpdate (request : Request) (slug : string)
    (project_id issue_id pk_ : pk)
| CommentDestroy (request : Request) (slug : string)
    (project_id issue_id pk_ : pk)
| IssueReactionCreate (request : Request) (slug : string)
    (project_id issue_id : pk)
| IssueReactionDestroy (request : Request) (slug : string)
    (project_id issue_id : pk) (reaction_code : string)
| CommentReactionCreate (request : Request) (slug : string)
    (project_id comment_id : pk)
| CommentReactionDestroy (request : Request) (slug : string)
    (project_id comment_id : pk) (reaction_code : string)
| VoteCreate (request : Request) (slug : string) (project_id issue_id : pk)
| VoteDestroy (request : Request) (slug : string) (project_id issue_id : pk).

Definition dispatch (E : Externals) (a : Action) : M Response :=
  match a with
  | CommentCreate rq slug p i => comment_create E rq slug p i
  | CommentPartialUpdate rq slug p i k => comment_partial_update E rq slug p i k
  | CommentDestroy rq slug p i k => comment_destroy rq slug p i k
  | IssueReactionCreate rq slug p i => issue_reaction_create E rq slug p i
  | IssueReactionDestroy rq slug p i c => issue_reaction_destroy rq slug p i c
  | CommentReactionCreate rq slug p c => comment_reaction_create E rq slug p c
  | CommentReactionDestroy rq slug p c r => comment_reaction_destroy rq slug p c r
  | VoteCreate rq slug p i => vote_create E rq slug p i
  | VoteDestroy rq slug p i => vote_destroy rq slug p i
  end.

Definition action_request (a : Action) : Request :=
  match a with
  | CommentCreate rq _ _ _ | CommentPartialUpdate rq _ _ _ _
  | CommentDestroy rq _ _ _ _ | IssueReactionCreate rq _ _ _
  | IssueReactionDestroy rq _ _ _ _ | CommentReactionCreate rq _ _ _
  | CommentReactionDestroy rq _ _ _ _ | VoteCreate rq _ _ _
  | VoteDestroy rq _ _ _ => rq
  end.

Definition action_slug (a : Action) : string :=
  match a with
  | CommentCreate _ slug _ _ | CommentPartialUpdate _ slug _ _ _
  | CommentDestroy _ slug _ _ _ | IssueReactionCreate _ slug _ _
  | IssueReactionDestroy _ slug _ _ _ | CommentReactionCreate _ slug _ _
  | CommentReactionDestroy _ slug _ _ _ | VoteCreate _ slug _ _
  | VoteDestroy _ slug _ _ => slug
  end.

Definition action_project (a : Action) : pk :=
  match a with
  | CommentCreate _ _ p _ | CommentPartialUpdate _ _ p _ _
  | CommentDestroy _ _ p _ _ | IssueReactionCreate _ _ p _
  | IssueReactionDestroy _ _ p _ _ | CommentReactionCreate _ _ p _
  | CommentReactionDestroy _ _ p _ _ | VoteCreate _ _ p _
  | VoteDestroy _ _ p _ => p
  end.

Definition action_resource (a : Action) : SubResource :=
  match a with
  | CommentCreate _ _ _ _ | CommentPartialUpdate _ _ _ _ _
  | CommentDestroy _ _ _ _ _ => SComment
  | IssueReactionCreate _ _ _ _ | IssueReactionDestroy _ _ _ _ _ =>
      SIssueReaction
  | CommentReactionCreate _ _ _ _ | CommentReactionDestroy _ _ _ _ _ =>
      SCommentReaction
  | VoteCreate _ _ _ _ | VoteDestroy _ _ _ _ => SVote
  end.

Definition is_create (a : Action) : bool :=
  match a with
  | CommentCreate _ _ _ _ | IssueReactionCreate _ _ _ _
  | CommentReactionCreate _ _ _ _ | VoteCreate _ _ _ _ => true
  | _ => false
  end.

Definition is_destroy (a : Action) : bool :=
  match a with
  | CommentDestroy _ _ _ _ _ | IssueReactionDestroy _ _ _ _ _
  | CommentReactionDestroy _ _ _ _ _ | VoteDestroy _ _ _ _ => true
  | _ => false
  end.

Definition is_update (a : Action) : bool :=
  match a with
  | CommentPartialUpdate _ _ _ _ _ => true
  | _ => false
  end.

(** The board of the action's (workspace, project) pair is published
    with the capability of the action's sub-resource switched on. *)
Definition gate_allows (a : Action) (s : Store) : Prop :=
  gate_passes (action_resource a) s (action_slug a) (action_project a).

(** The requester owns none of the rows an update or delete addresses:
    the comment with the given primary key, the reactions with the
    given code on the given issue or comment, the votes on the given
    issue. *)
Definition not_owner (a : Action) (s : Store) : Prop :=
  match a with
  | CommentPartialUpdate rq _ _ _ k | CommentDestroy rq _ _ _ k =>
      ∀ c, comments s !! k = Some c → ic_actor c ≠ user rq
  | IssueReactionDestroy rq _ _ i code =>
      ∀ k r, issue_reactions s !! k = Some r →
             ir_issue r = i → ir_reaction r = code → ir_actor r ≠ user rq
  | CommentReactionDestroy rq _ _ c code =>
      ∀ k r, comment_reactions s !! k = Some r →
             cr_comment r = c → cr_reaction r = code → cr_actor r ≠ user rq
  | VoteDestroy rq _ _ i =>
      ∀ k v, votes s !! k = Some v → iv_issue v = i → iv_actor v ≠ user rq
  | _ => False
  end.

(** Every comment, reaction and vote of an actor other than [u] that is
    in [s] is in [s'], unchanged. *)
Definition others_kept (u : pk) (s s' : Store) : Prop :=
  (∀ k c, comments s !! k = Some c → ic_actor c ≠ u →
          comments s' !! k = Some c) ∧
  (∀ k r, issue_reactions s !! k = Some r → ir_actor r ≠ u →
          issue_reactions s' !! k = Some r) ∧
  (∀ k r, comment_reactions s !! k = Some r → cr_actor r ≠ u →
          comment_reactions s' !! k = Some r) ∧
  (∀ k v, votes s !! k = Some v → iv_actor v ≠ u →
          votes s' !! k = Some v).

(** The [ProjectPublicMember] rows of an identity on a project, and
    whether the identity is an active formal member. *)
Definition public_rows (s : Store) (project_id member : pk)
  : gmap pk ProjectPublicMember :=
  filter (λ kv, ppm_project kv.2 = project_id ∧ ppm_member kv.2 = member)
    (public_members s).

Definition active_member (s : Store) (project_id member : pk) : Prop :=
  ∃ k m, project_members s !! k = Some m ∧ pm_project m = project_id ∧
         pm_member m = member ∧ pm_is_active m = true.

(** The [IssueVote] rows of an actor on an issue. *)
Definition vote_rows (s : Store) (issue_id actor : pk) : gmap pk IssueVote :=
  filter (λ kv, iv_issue kv.2 = issue_id ∧ iv_actor kv.2 = actor) (votes s).

(** The type tag of the event a destroy handler emits, and the key
    under which the snapshot carries the id of the deleted row. *)
Definition deleted_type (res : SubResource) : string :=
  match res with
  | SComment => "comment.activity.deleted"
  | SIssueReaction => "issue_reaction.activity.deleted"
  | SCommentReaction => "comment_reaction.activity.deleted"
  | SVote => "issue_vote.activity.deleted"
  end.

Definition id_key (res : SubResource) : string :=
  match res with
  | SComment => "id"
  | _ => "identifier"
  end.

(** The lookups of the four destroy handlers. *)
Definition comment_destroy_lookup (rq : Request) (slug : string)
    (project_id pk_ : pk) : pk * IssueComment → bool :=
  λ kv, bool_decide (ic_workspace kv.2 = slug)
        && bool_decide (kv.1 = pk_)
        && bool_decide (ic_project kv.2 = project_id)
        && bool_decide (ic_actor kv.2 = user rq).

Definition issue_reaction_destroy_lookup (rq : Request) (slug : string)
    (issue_id : pk) (reaction_code : string) : pk * IssueReaction → bool :=
  λ kv, bool_decide (ir_workspace kv.2 = slug)
        && bool_decide (ir_issue kv.2 = issue_id)
        && bool_decide (ir_reaction kv.2 = reaction_code)
        && bool_decide (ir_actor kv.2 = user rq).

Definition comment_reaction_destroy_lookup (rq : Request) (slug : string)
    (project_id comment_id : pk) (reaction_code : string)
  : pk * CommentReaction → bool :=
  λ kv, bool_decide (cr_project kv.2 = project_id)
        && bool_decide (cr_workspace kv.2 = slug)
        && bool_decide (cr_comment kv.2 = comment_id)
        && bool_decide (cr_reaction kv.2 = reaction_code)
        && bool_decide (cr_actor kv.2 = user rq).

Definition vote_destroy_lookup (rq : Request) (slug : string)
    (project_id issue_id : pk) : pk * IssueVote → bool :=
  λ kv, bool_decide (iv_workspace kv.2 = slug)
        && bool_decide (iv_project kv.2 = project_id)
        && bool_decide (iv_issue kv.2 = issue_id)
        && bool_decide (iv_actor kv.2 = user rq).

(** The primary keys of the rows the lookup of a destroy request
    matches. *)
Definition destroy_target (a : Action) (s : Store) : gset pk :=
  match a with
  | CommentDestroy rq slug p _ k =>
      dom (objects_filter IssueComments
             (comment_destroy_lookup rq slug p k) s)
  | IssueReactionDestroy rq slug _ i code =>
      dom (objects_filter IssueReactions
             (issue_reaction_destroy_lookup rq slug i code) s)
  | CommentReactionDestroy rq slug p c code =>
      dom (objects_filter CommentReactions
             (comment_reaction_destroy_lookup rq slug p c code) s)
  | VoteDestroy rq slug p i =>
      dom (objects_filter IssueVotes (vote_destroy_lookup rq slug p i) s)
  | _ => ∅
  end.

(** What the event of a destroy request carries as [current_instance]
    when row [k] is deleted: a function of the row as [s] holds it. *)
Definition deleted_snapshot (a : Action) (s : Store) (k : pk)
  : option jobject :=
  match a with
  | CommentDestroy _ _ _ _ _ =>
      IssueCommentSerializer_data k <$> comments s !! k
  | IssueReactionDestroy _ _ _ _ _ =>
      (λ r, <["reaction" := JStr (ir_reaction r)]>
              (<["identifier" := str_id k]> ∅))
      <$> issue_reactions s !! k
  | CommentReactionDestroy _ _ _ _ _ =>
      (λ r, <["reaction" := JStr (cr_reaction r)]>
              (<["identifier" := str_id k]>
              (<["comment_id" := str_id (cr_comment r)]> ∅)))
      <$> comment_reactions s !! k
  | VoteDestroy _ _ _ _ =>
      (λ v, <["vote" := JStr (str_jval (iv_vote v))]>
              (<["identifier" := str_id k]> ∅))
      <$> votes s !! k
  | _ => None
  end.

(** The table of [res] in [s'] is the table in [s] without row [k]. *)
Definition own_row_deleted (res : SubResource) (k : pk) (s s' : Store)
  : Prop :=
  match res with
  | SComment => comments s' = delete k (comments s)
  | SIssueReaction => issue_reactions s' = delete k (issue_reactions s)
  | SCommentReaction => comment_reactions s' = delete k (comment_reactions s)
  | SVote => votes s' = delete k (votes s)
  end.

(** The run of destroy request [a] from [s] to [s'] with outcome [r]
    deleted row [k]: the answer is 204 without a body; the handler made
    two calls, first [issue_activity.delay] with the deleted-type of the
    resource and the snapshot of row [k], which carries the id of the
    row, then the delete; and the row is gone from its table. *)
Definition deleted_by (a : Action) (k : pk) (s s' : Store)
    (r : exn + Response) : Prop :=
  r = inr {| body := None; status := HTTP_204_NO_CONTENT |} ∧
  ∃ ev snap,
    trace s' = trace s ++
      [Delayed ev; Deleted (resource_model (action_resource a)) k] ∧
    ev_type ev = deleted_type (action_resource a) ∧
    ev_current_instance ev = Some snap ∧
    deleted_snapshot a s k = Some snap ∧
    snap !! id_key (action_resource a) = Some (str_id k) ∧
    own_row_deleted (action_resource a) k s s'.

(** The payload carries a vote that is an integer an [IntegerField]
    column holds, or no vote, which stands for 1. *)
Definition integer_vote (rq : Request) (z : Z) : Prop :=
  -2147483648 ≤ z ≤ 2147483647 ∧
  (data rq !! "vote" = Some (JInt z) ∨
   (data rq !! "vote" = None ∧ z = 1)).

(** The store after a [ProjectPublicMember] row for (project, member)
    was inserted. *)
Definition registered (s : Store) (project_id member : pk) : Store :=
  let k := fresh (dom (public_members s)) in
  log (Inserted MProjectPublicMember k)
    (set_public_members
       (<[k := {| ppm_project := project_id; ppm_member := member |}]>
          (public_members s)) s).

(** How a create request relates to the public-member table: either
    the table is as it was (and a 201 means the requester was already an
    active member or had exactly one row, while a
    [MultipleObjectsReturned] from the table means there were several),
    or the requester had no row, was no active member, and got one. *)
Definition registration_outcome (project_id member : pk) (s s' : Store)
    (r : exn + Response) : Prop :=
  project_members s' = project_members s ∧
  ((public_members s' = public_members s ∧
    (∀ resp, r = inr resp → status resp = HTTP_201_CREATED →
       active_member s project_id member ∨
       ∃ k row, public_rows s project_id member = {[k := row]}) ∧
    (r = inl (MultipleObjectsReturned MProjectPublicMember) →
       (2 ≤ size (public_rows s project_id member))%nat)) ∨
   (¬ active_member s project_id member ∧
    public_rows s project_id member = ∅ ∧
    public_members s' =
      <[fresh (dom (public_members s)) :=
          {| ppm_project := project_id; ppm_member := member |}]>
        (public_members s) ∧
    r ≠ inl (MultipleObjectsReturned MProjectPublicMember))).

(** The votes on an issue are recorded under the project of the
    request path. *)
Definition vote_scope (s : Store) (project_id issue_id : pk) : Prop :=
  ∀ k v, votes s !! k = Some v → iv_issue v = issue_id →
         iv_project v = project_id.

(** The tables no handler writes are the same in [s'] as in [s]. *)
Definition fixed_tables_kept (s s' : Store) : Prop :=
  deploy_boards s' = deploy_boards s ∧
  project_members s' = project_members s ∧
  issues s' = issues s ∧
  issue_links s' = issue_links s ∧
  issue_attachments s' = issue_attachments s.

(** The tables of the sub-resources other than the one of request
    [a] are the same in [s'] as in [s]. Nothing is said of the comment
    reactions after a comment delete: the rows that hang on a deleted
    comment are for the database to remove. *)
Definition other_resources_kept (a : Action) (s s' : Store) : Prop :=
  (action_resource a ≠ SComment → comments s' = comments s) ∧
  (action_resource a ≠ SIssueReaction →
   issue_reactions s' = issue_reactions s) ∧
  (action_resource a ≠ SCommentReaction →
   (action_resource a = SComment → is_destroy a = false) →
   comment_reactions s' = comment_reactions s) ∧
  (action_resource a ≠ SVote → votes s' = votes s).

(** ** Sample data *)

Definition empty_store : Store :=
  {| deploy_boards := ∅; project_members := ∅; public_members := ∅;
     issues := ∅; issue_links := ∅; issue_attachments := ∅; comments := ∅;
     issue_reactions := ∅; comment_reactions := ∅; votes := ∅; trace := [] |}.

(** A comment serializer that reads [comment_html], required on create,
    and reaction serializers that read [reaction]. *)
Definition sample_externals : Externals :=
  {| project_workspace := λ _, "acme";
     issue_vote_default := JInt 1;
     comment_is_valid := λ partial d,
       match d !! "comment_html" with
       | Some (JStr h) => inr {[ "comment_html" := JStr h ]}
       | Some _ => inl {[ "comment_html" := JStr "Not a valid string." ]}
       | None =>
           if partial then inr ∅
           else inl {[ "comment_html" := JStr "This field is required." ]}
       end;
     issue_reaction_is_valid := λ d,
       match d !! "reaction" with
       | Some (JStr r) => inr r
       | _ => inl {[ "reaction" := JStr "This field is required." ]}
       end;
     comment_reaction_is_valid := λ d,
       match d !! "reaction" with
       | Some (JStr r) => inr r
       | _ => inl {[ "reaction" := JStr "This field is required." ]}
       end;
     comment_filter_backends := λ _, true |}.

Definition board (comments_on reactions_on votes_on : bool)
  : ProjectDeployBoard :=
  {| pdb_workspace := "acme"; pdb_project := 3%positive;
     pdb_comments := comments_on; pdb_reactions := reactions_on;
     pdb_votes := votes_on |}.

Definition with_board (b : ProjectDeployBoard) (s : Store) : Store :=
  {| deploy_boards := {[ 1%positive := b ]};
     project_members := project_members s;
     public_members := public_members s; issues := issues s;
     issue_links := issue_links s; issue_attachments := issue_attachments s;
     comments := comments s; issue_reactions := issue_reactions s;
     comment_reactions := comment_reactions s; votes := votes s;
     trace := trace s |}.

(** Project 3 of workspace "acme" with every capability switched off. *)
Definition store_flags_off : Store :=
  with_board (board false false false) empty_store.

(** Visitor 7 votes on issue 5 of project 3. *)
Definition visitor_vote (v : Z) : Request :=
  {| user := 7%positive; data := {[ "vote" := JInt v ]}; now := 100 |}.

Definition first_vote : Action :=
  VoteCreate (visitor_vote 1) "acme" 3%positive 5%positive.

Definition after_first_vote : Store :=
  (dispatch sample_externals first_vote empty_store).2.

Definition first_vote_response : Response :=
  match (dispatch sample_externals first_vote empty_store).1 with
  | inr resp => resp
  | inl _ => error_response "" HTTP_400_BAD_REQUEST
  end.

(** Visitor 7 has a downvote on issue 5 and sends a body without a
    [vote] field. *)
Definition store_with_downvote : Store :=
  set_votes
    {[ 1%positive := {| iv_workspace := "acme"; iv_project := 3%positive;
                        iv_issue := 5%positive; iv_actor := 7%positive;
                        iv_vote := JInt (-1) |} ]}
    empty_store.

Definition bare_request : Request :=
  {| user := 7%positive; data := ∅; now := 200 |}.

(** Visitors 7 and 8 both left a "+1" on issue 5; every capability of
    the board is on. *)
Definition plus_one (actor : pk) (at_ : Z) : IssueReaction :=
  {| ir_workspace := "acme"; ir_project := 3%positive;
     ir_issue := 5%positive; ir_actor := actor; ir_reaction := "+1";
     ir_created_at := at_ |}.

Definition store_two_reactions : Store :=
  with_board (board true true true)
    (set_issue_reactions
       (<[1%positive := plus_one 7%positive 10]>
          {[ 2%positive := plus_one 8%positive 20 ]})
       empty_store).

Definition visitor_unreacts : Action :=
  IssueReactionDestroy {| user := 7%positive; data := ∅; now := 300 |}
    "acme" 3%positive 5%positive "+1".

(** Visitor 9, who left no reaction, tries the same. *)
Definition stranger_unreacts : Action :=
  IssueReactionDestroy {| user := 9%positive; data := ∅; now := 300 |}
    "acme" 3%positive 5%positive "+1".

(** Visitor 7 wrote comment 1 on issue 5 and now edits it. *)
Definition comment_with (html : string) : IssueComment :=
  {| ic_workspace := "acme"; ic_project := 3%positive;
     ic_issue := 5%positive; ic_actor := 7%positive;
     ic_access := "EXTERNAL"; ic_created_at := 10;
     ic_attrs := {[ "comment_html" := JStr html ]} |}.

Definition store_with_comment : Store :=
  with_board (board true true true)
    (set_comments {[ 1%positive := comment_with "old" ]} empty_store).

Definition edit_request : Request :=
  {| user := 7%positive; data := {[ "comment_html" := JStr "new" ]};
     now := 400 |}.

(** Issue 5 of project 3 in workspace "acme" is a draft; issue 6 of
    project 4 in workspace "other" is not. *)
Definition draft_issue : Issue :=
  {| i_workspace := "acme"; i_project := 3%positive; i_is_draft := true;
     i_archived_at := None; i_parent := None; i_created_at := 10;
     i_name := "Draft"; i_inbox_status := None |}.

Definition foreign_issue : Issue :=
  {| i_workspace := "other"; i_project := 4%positive; i_is_draft := false;
     i_archived_at := None; i_parent := None; i_created_at := 20;
     i_name := "Elsewhere"; i_inbox_status := None |}.

Definition with_issues (s : Store) : Store :=
  {| deploy_boards := deploy_boards s; project_members := project_members s;
     public_members := public_members s;
     issues := <[5%positive := draft_issue]> {[ 6%positive := foreign_issue ]};
     issue_links := issue_links s; issue_attachments := issue_attachments s;
     comments := comments s; issue_reactions := issue_reactions s;
     comment_reactions := comment_reactions s; votes := votes s;
     trace := trace s |}.

(** No deploy board at all. *)
Definition store_unpublished : Store := with_issues empty_store.

(** Project 3 is published. *)
Definition store_published : Store :=
  with_issues (with_board (board true true true) empty_store).

Definition bare_row (kv : pk * Issue) : IssueRow :=
  {| row_id := kv.1; row_issue := kv.2; link_count := None;
     attachment_count := None; sub_issues_count := None |}.

(** An inherited [get_queryset] that yields every issue without
    annotations, no filters, and ordering and grouping that leave the
    queryset as it is. *)
Definition sample_listing : ListingExternals :=
  {| issue_objects := λ kv, negb (i_is_draft kv.2)
                            && bool_decide (i_archived_at kv.2 = None);
     issue_filters := λ _ _, true;
     get_queryset := λ s, bare_row <$> map_to_list (issues s);
     order_issue_queryset := λ l _, l;
     issue_queryset_grouper := λ l _, l |}.

(** Project 3 of workspace "acme" with every capability switched on,
    and nothing else. *)
Definition store_open : Store :=
  with_board (board true true true) empty_store.

(** Visitor 7 leaves a "+1". *)
Definition react_request : Request :=
  {| user := 7%positive; data := {[ "reaction" := JStr "+1" ]}; now := 250 |}.

(** Comment 1 of visitor 7 belongs to project 4 of the same workspace,
    which is not the published project 3. *)
Definition comment_elsewhere : IssueComment :=
  {| ic_workspace := "acme"; ic_project := 4%positive;
     ic_issue := 9%positive; ic_actor := 7%positive;
     ic_access := "EXTERNAL"; ic_created_at := 10;
     ic_attrs := {[ "comment_html" := JStr "old" ]} |}.

Definition store_foreign_comment : Store :=
  with_board (board true true true)
    (set_comments {[ 1%positive := comment_elsewhere ]} empty_store).

Definition grouped_params : gmap string string :=
  {[ "group_by" := "state" ]}.

(** * Facts about the ORM calls *)

Section OrmFacts.
Context {A : Type}.
Implicit Types (T : Table A) (P : pk * A → bool) (m : gmap pk A).

(** A queryset holds no row, one row, or at least two. *)
Lemma map_to_list_cases m :
  (m = ∅ ∧ map_to_list m = []) ∨
  (∃ k v, m = {[k := v]} ∧ map_to_list m = [(k, v)]) ∨
  (∃ a b l, map_to_list m = a :: b :: l ∧ 2 ≤ size m)%nat.
Proof.
  destruct (map_to_list m) as [|[k v] [|b l]] eqn:Hl.
  - left. split; [by apply map_to_list_empty_iff | done].
  - right; left. exists k, v. split; [|done].
    rewrite <- (list_to_map_to_list m), Hl. simpl. apply insert_empty.
  - right; right. exists (k, v), b, l. split; [done|].
    rewrite <- length_map_to_list, Hl. simpl. lia.
Qed.

Lemma filter_singleton_inv (Q : pk * A → Prop) `{!∀ x, Decision (Q x)}
    m k r :
  filter Q m = {[k := r]} →
  m !! k = Some r ∧ Q (k, r) ∧
  ∀ k' r', m !! k' = Some r' → Q (k', r') → k' = k ∧ r' = r.
Proof.
  intros Hf.
  assert (Hk : filter Q m !! k = Some r) by (rewrite Hf; apply lookup_singleton_eq).
  apply map_lookup_filter_Some in Hk as [Hk HQ].
  repeat split; [done..| |].
  - assert (H' : filter Q m !! k' = Some r')
      by (by apply map_lookup_filter_Some).
    rewrite Hf in H'. by apply lookup_singleton_Some in H' as [? _].
  - assert (H' : filter Q m !! k' = Some r')
      by (by apply map_lookup_filter_Some).
    rewrite Hf in H'. by apply lookup_singleton_Some in H' as [_ ?].
Qed.

Lemma filter_singleton_intro (Q : pk * A → Prop) `{!∀ x, Decision (Q x)}
    m k r :
  m !! k = Some r → Q (k, r) →
  (∀ k' r', m !! k' = Some r' → Q (k', r') → k' = k) →
  filter Q m = {[k := r]}.
Proof.
  intros Hk HQ Huniq. apply map_eq. intros j.
  destruct (decide (j = k)) as [->|Hne].
  - rewrite lookup_singleton_eq. by apply map_lookup_filter_Some.
  - rewrite lookup_singleton_ne by done.
    destruct (filter Q m !! j) as [x|] eqn:Hj; [|done].
    apply map_lookup_filter_Some in Hj as [Hj HQj].
    by destruct Hne; eapply Huniq.
Qed.

Lemma filter_empty_intro (Q : pk * A → Prop) `{!∀ x, Decision (Q x)} m :
  (∀ k r, m !! k = Some r → ¬ Q (k, r)) → filter Q m = ∅.
Proof. intros Hno. apply map_empty_filter. intros k r Hk. by apply Hno. Qed.

Lemma filter_empty_inv (Q : pk * A → Prop) `{!∀ x, Decision (Q x)} m k r :
  filter Q m = ∅ → m !! k = Some r → ¬ Q (k, r).
Proof. intros He Hk. by apply (map_empty_filter_1 _ _ He k r). Qed.

(** [objects.get] returns the row when exactly one matches. *)
Lemma objects_get_one T P s k r :
  objects_filter T P s = {[k := r]} → objects_get T P s = (inr (k, r), s).
Proof.
  intros H. unfold objects_get. rewrite H, map_to_list_singleton. done.
Qed.

(** [objects.get] raises [DoesNotExist] when no row matches. *)
Lemma objects_get_none T P s :
  objects_filter T P s = ∅ →
  objects_get T P s = (inl (DoesNotExist (tbl_model T)), s).
Proof.
  intros H. unfold objects_get. by rewrite H, map_to_list_empty.
Qed.

(** What each outcome of [objects.get] says about the table. *)
Lemma objects_get_inv T P s res s' :
  objects_get T P s = (res, s') →
  s' = s ∧
  match res with
  | inr (k, r) => objects_filter T P s = {[k := r]}
  | inl (DoesNotExist m) => m = tbl_model T ∧ objects_filter T P s = ∅
  | inl (MultipleObjectsReturned m) =>
      m = tbl_model T ∧ (2 ≤ size (objects_filter T P s))%nat
  end.
Proof.
  unfold objects_get.
  destruct (map_to_list_cases (objects_filter T P s))
    as [[He ->]|[(k & v & He & ->)|(a & b & l & -> & Hsz)]];
    intros [= <- <-]; split; try done.
Qed.

Lemma objects_exists_eq T P s :
  objects_exists T P s =
  (inr (bool_decide (objects_filter T P s ≠ ∅)), s).
Proof. done. Qed.

(** [get_or_create] finds the row when exactly one matches. *)
Lemma objects_get_or_create_one T P row s k r :
  objects_filter T P s = {[k := r]} →
  objects_get_or_create T P row s = (inr (k, r, false), s).
Proof.
  intros H. unfold objects_get_or_create.
  by rewrite H, map_to_list_singleton.
Qed.

(** [get_or_create] inserts the row under a fresh key when none
    matches. *)
Lemma objects_get_or_create_none T P row s :
  objects_filter T P s = ∅ →
  objects_get_or_create T P row s =
  (inr (fresh (dom (tbl_rows T s)), row, true),
   log (Inserted (tbl_model T) (fresh (dom (tbl_rows T s))))
     (tbl_put T (<[fresh (dom (tbl_rows T s)) := row]> (tbl_rows T s)) s)).
Proof.
  intros H. unfold objects_get_or_create.
  by rewrite H, map_to_list_empty.
Qed.

Lemma objects_get_or_create_many T P row s :
  (2 ≤ size (objects_filter T P s))%nat →
  objects_get_or_create T P row s =
  (inl (MultipleObjectsReturned (tbl_model T)), s).
Proof.
  intros H. unfold objects_get_or_create.
  destruct (map_to_list_cases (objects_filter T P s))
    as [[He _]|[(k & v & He & _)|(a & b & l & -> & _)]]; [| |done].
  - rewrite He, map_size_empty in H. lia.
  - rewrite He, map_size_singleton in H. lia.
Qed.

(** Every outcome of [get_or_create]. *)
Lemma objects_get_or_create_inv T P row s res s' :
  objects_get_or_create T P row s = (res, s') →
  match res with
  | inl e =>
      e = MultipleObjectsReturned (tbl_model T) ∧ s' = s ∧
      (2 ≤ size (objects_filter T P s))%nat
  | inr (k, r, created) =>
      (created = false ∧ s' = s ∧ objects_filter T P s = {[k := r]}) ∨
      (created = true ∧ r = row ∧ k = fresh (dom (tbl_rows T s)) ∧
       objects_filter T P s = ∅ ∧
       s' = log (Inserted (tbl_model T) k)
              (tbl_put T (<[k := row]> (tbl_rows T s)) s))
  end.
Proof.
  destruct (map_to_list_cases (objects_filter T P s))
    as [[He _]|[(k & v & He & _)|(a & b & l & _ & Hsz)]].
  - rewrite objects_get_or_create_none by done. intros [= <- <-].
    right. done.
  - rewrite (objects_get_or_create_one _ _ _ _ k v) by done.
    intros [= <- <-]. left. done.
  - rewrite objects_get_or_create_many by done. intros [= <- <-]. done.
Qed.

Lemma fresh_lookup_None m : m !! fresh (dom m) = None.
Proof. apply not_elem_of_dom, is_fresh. Qed.

End OrmFacts.

(** Unfolding the monad. *)
Ltac unfold_M :=
  unfold mbind, M_bind, mret, M_ret, raise, reads, effect,
    issue_activity_delay, instance_save, instance_delete, objects_create in *.

(** * The deploy board gate *)

Lemma board_lookup_true slug project_id (b : ProjectDeployBoard) :
  bool_decide (pdb_workspace b = slug)
  && bool_decide (pdb_project b = project_id) = true ↔
  board_of slug project_id b.
Proof.
  unfold board_of. rewrite andb_true_iff, !bool_decide_eq_true. done.
Qed.

(** The lookup returns the board of a published pair. *)
Lemma get_board_published s slug project_id b :
  published s slug project_id b →
  ∃ k, get_project_deploy_board slug project_id s = (inr (k, b), s).
Proof.
  intros (k & Hk & Hb & Huniq). exists k.
  apply objects_get_one. unfold objects_filter.
  apply filter_singleton_intro; cbn.
  - done.
  - by apply board_lookup_true.
  - intros k' b' Hk' Hb'. apply (Huniq k' b' Hk').
    by apply board_lookup_true.
Qed.

(** The lookup raises [ProjectDeployBoard.DoesNotExist] for an
    unpublished pair. *)
Lemma get_board_unpublished s slug project_id :
  unpublished s slug project_id →
  get_project_deploy_board slug project_id s =
  (inl (DoesNotExist MProjectDeployBoard), s).
Proof.
  intros Hun. apply (objects_get_none ProjectDeployBoards).
  unfold objects_filter. apply filter_empty_intro.
  intros k b Hk HP. cbn in HP. apply (Hun k b Hk).
  by apply board_lookup_true.
Qed.

(** What the outcome of the lookup says about the boards. *)
Lemma get_board_inv s slug project_id res s' :
  get_project_deploy_board slug project_id s = (res, s') →
  s' = s ∧
  match res with
  | inr (k, b) => published s slug project_id b
  | inl (DoesNotExist m) =>
      m = MProjectDeployBoard ∧ unpublished s slug project_id
  | inl (MultipleObjectsReturned m) => m = MProjectDeployBoard
  end.
Proof.
  intros H. apply objects_get_inv in H as [-> H]. split; [done|].
  destruct res as [[m|m]|[k b]]; [| by destruct H |].
  - destruct H as [-> H]. split; [done|]. intros k b Hk Hb.
    eapply (filter_empty_inv _ _ k b H Hk). cbn.
    by apply board_lookup_true.
  - apply filter_singleton_inv in H as (Hk & HP & Huniq). cbn in *.
    exists k. split; [done|]. split.
    + by apply board_lookup_true.
    + intros k' b' Hk' Hb'. apply (Huniq k' b' Hk').
      by apply board_lookup_true.
Qed.

(** * List endpoints *)

(** C5: a list request on comments, issue reactions, comment reactions
    or votes whose deploy board is missing, or whose board has the
    capability of that sub-resource switched off, returns the empty
    sequence and raises nothing; the store is left as it was. *)
Theorem list_degrades_to_empty (E : Externals) (res : SubResource)
    (uid : option pk) (slug : string) (project_id target : pk) (s : Store) :
  gate_closed res s slug project_id →
  list_ids E res uid slug project_id target s = (inr [], s).
Proof.
  intros [Hun|(b & Hpub & Hcap)].
  - apply get_board_unpublished in Hun.
    destruct res; unfold list_ids, comment_get_queryset,
      issue_reaction_get_queryset, comment_reaction_get_queryset,
      vote_get_queryset, try_except_DoesNotExist; unfold_M;
      rewrite Hun; done.
  - apply get_board_published in Hpub as [k Hget].
    destruct res; simpl in Hcap;
      unfold list_ids, comment_get_queryset,
      issue_reaction_get_queryset, comment_reaction_get_queryset,
      vote_get_queryset, try_except_DoesNotExist; unfold_M;
      rewrite Hget, Hcap; done.
Qed.

Lemma with_board_published b s :
  pdb_workspace b = "acme" → pdb_project b = 3%positive →
  published (with_board b s) "acme" 3%positive b.
Proof.
  intros Hw Hp. exists 1%positive. split; [apply lookup_singleton_eq|].
  split; [done|]. intros k' b' Hk' _. cbn in Hk'.
  by apply lookup_singleton_Some in Hk' as [? _].
Qed.

Lemma list_degrades_to_empty_witness :
  gate_closed SVote store_flags_off "acme" 3%positive ∧
  list_ids sample_externals SVote None "acme" 3%positive 5%positive
    store_flags_off = (inr [], store_flags_off).
Proof.
  assert (H : gate_closed SVote store_flags_off "acme" 3%positive).
  { right. exists (board false false false).
    split; [by apply with_board_published | reflexivity]. }
  split; [exact H | exact (list_degrades_to_empty _ _ _ _ _ _ _ H)].
Defined.

(** * Visitor registration *)

Lemma filter_nonempty_iff {A} (Q : pk * A → Prop) `{!∀ x, Decision (Q x)}
    (m : gmap pk A) :
  filter Q m ≠ ∅ ↔ ∃ k r, m !! k = Some r ∧ Q (k, r).
Proof.
  split.
  - intros Hne. apply map_choose in Hne as (k & r & Hk).
    apply map_lookup_filter_Some in Hk. eauto.
  - intros (k & r & Hk & HQ) He. by eapply filter_empty_inv.
Qed.

Lemma is_member_true s project_id u :
  bool_decide (objects_filter ProjectMembers
    (λ kv, bool_decide (pm_project kv.2 = project_id)
           && bool_decide (pm_member kv.2 = u)
           && pm_is_active kv.2) s ≠ ∅) = true ↔
  active_member s project_id u.
Proof.
  rewrite bool_decide_eq_true. unfold objects_filter, active_member.
  rewrite filter_nonempty_iff. cbn.
  setoid_rewrite andb_true_iff. setoid_rewrite andb_true_iff.
  setoid_rewrite bool_decide_eq_true.
  split.
  - intros (k & m & Hk & [[? ?] ?]). exists k, m. done.
  - intros (k & m & ? & ? & ? & ?). exists k, m. done.
Qed.

Lemma is_member_false s project_id u :
  ¬ active_member s project_id u →
  bool_decide (objects_filter ProjectMembers
    (λ kv, bool_decide (pm_project kv.2 = project_id)
           && bool_decide (pm_member kv.2 = u)
           && pm_is_active kv.2) s ≠ ∅) = false.
Proof.
  intros Hn. apply not_true_is_false. by rewrite is_member_true.
Qed.

Lemma public_filter_eq s project_id u :
  objects_filter ProjectPublicMembers
    (λ kv, bool_decide (ppm_project kv.2 = project_id)
           && bool_decide (ppm_member kv.2 = u)) s =
  public_rows s project_id u.
Proof.
  unfold objects_filter, public_rows. apply map_filter_ext.
  intros k r _. cbn. rewrite andb_true_iff, !bool_decide_eq_true. done.
Qed.

(** An active formal member is never registered. *)
Lemma track_member rq project_id s :
  active_member s project_id (user rq) →
  track_public_member rq project_id s = (inr tt, s).
Proof.
  intros Hm. apply is_member_true in Hm.
  unfold track_public_member. unfold_M.
  rewrite objects_exists_eq, Hm. done.
Qed.

(** The first visit inserts the row. *)
Lemma track_new rq project_id s :
  ¬ active_member s project_id (user rq) →
  public_rows s project_id (user rq) = ∅ →
  track_public_member rq project_id s =
  (inr tt, registered s project_id (user rq)).
Proof.
  intros Hm He. apply is_member_false in Hm.
  unfold track_public_member. unfold_M.
  rewrite objects_exists_eq, Hm. cbn.
  rewrite objects_get_or_create_none by (by rewrite public_filter_eq).
  done.
Qed.

(** A later visit finds the row and writes nothing. *)
Lemma track_known rq project_id s k r :
  public_rows s project_id (user rq) = {[k := r]} →
  track_public_member rq project_id s = (inr tt, s).
Proof.
  intros He. unfold track_public_member. unfold_M.
  rewrite objects_exists_eq.
  destruct (bool_decide _); cbn; [done|].
  rewrite (objects_get_or_create_one _ _ _ _ k r)
    by (by rewrite public_filter_eq).
  done.
Qed.

(** Every outcome of the registration. *)
Lemma track_inv rq project_id s res s' :
  track_public_member rq project_id s = (res, s') →
  (res = inr tt ∧ s' = s ∧
     (active_member s project_id (user rq) ∨
      ∃ k r, public_rows s project_id (user rq) = {[k := r]})) ∨
  (res = inr tt ∧ s' = registered s project_id (user rq) ∧
     ¬ active_member s project_id (user rq) ∧
     public_rows s project_id (user rq) = ∅) ∨
  (res = inl (MultipleObjectsReturned MProjectPublicMember) ∧ s' = s ∧
     ¬ active_member s project_id (user rq) ∧
     (2 ≤ size (public_rows s project_id (user rq)))%nat).
Proof.
  destruct (decide (active_member s project_id (user rq))) as [Hm|Hm].
  - rewrite track_member by done. intros [= <- <-]. left. eauto.
  - destruct (map_to_list_cases (public_rows s project_id (user rq)))
      as [[He _]|[(k & v & He & _)|(a & b & l & _ & Hsz)]].
    + rewrite track_new by done. intros [= <- <-]. right; left. eauto.
    + rewrite (track_known _ _ _ k v) by done. intros [= <- <-].
      left. eauto 6.
    + unfold track_public_member. unfold_M.
      rewrite objects_exists_eq, is_member_false by done. cbn.
      rewrite objects_get_or_create_many by (by rewrite public_filter_eq).
      intros [= <- <-]. right; right. eauto.
Qed.

Lemma active_member_ext s1 s project_id u :
  project_members s1 = project_members s →
  active_member s1 project_id u ↔ active_member s project_id u.
Proof. unfold active_member. by intros ->. Qed.

Lemma public_rows_ext s1 s project_id u :
  public_members s1 = public_members s →
  public_rows s1 project_id u = public_rows s project_id u.
Proof. unfold public_rows. by intros ->. Qed.

Lemma track_registration rq project_id s1 s res s2 :
  project_members s1 = project_members s →
  public_members s1 = public_members s →
  track_public_member rq project_id s1 = (res, s2) →
  project_members s2 = project_members s ∧
  ((res = inr tt ∧ public_members s2 = public_members s ∧
     (active_member s project_id (user rq) ∨
      ∃ k r, public_rows s project_id (user rq) = {[k := r]})) ∨
   (res = inr tt ∧ ¬ active_member s project_id (user rq) ∧
     public_rows s project_id (user rq) = ∅ ∧
     public_members s2 =
       <[fresh (dom (public_members s)) :=
           {| ppm_project := project_id; ppm_member := user rq |}]>
         (public_members s)) ∨
   (res = inl (MultipleObjectsReturned MProjectPublicMember) ∧
     public_members s2 = public_members s ∧
     (2 ≤ size (public_rows s project_id (user rq)))%nat)).
Proof.
  intros Hpm Hppm Ht.
  apply track_inv in Ht as [(-> & -> & H)|[(-> & -> & Hn & He)|(-> & -> & Hn & Hsz)]].
  - split; [done|]. left.
    rewrite (active_member_ext _ _ _ _ Hpm), (public_rows_ext _ _ _ _ Hppm) in H.
    done.
  - split; [by rewrite <- Hpm|]. right; left.
    rewrite (active_member_ext _ _ _ _ Hpm) in Hn.
    rewrite (public_rows_ext _ _ _ _ Hppm) in He.
    unfold registered. cbn. rewrite Hppm. done.
  - split; [done|]. right; right.
    rewrite (public_rows_ext _ _ _ _ Hppm) in Hsz. done.
Qed.

(** The response left before the registration was reached. *)
Ltac no_registration :=
  intros [= <- <-]; split; [done|]; left; split; [done|];
  split; [by intros ? [= <-] | by intros [= ->]].

(** The three outcomes of the registration, after which the handler
    only appends to the trace and writes its own table. *)
Ltac after_registration Ht :=
  destruct Ht as [Hpm [(-> & Hp & H)|[(-> & Hn & He & Hp)|(-> & Hp & Hsz)]]];
  cbn; intros [= <- <-]; (split; [done|]);
  [ left; split; [done|]; split; [by intros | by intros [=]]
  | right; split; [done|]; split; [done|]; split; [done | by intros [=]]
  | left; split; [done|]; split; [by intros ? [=] | by intros _] ].

Lemma create_registration E a s r s' :
  is_create a = true →
  dispatch E a s = (r, s') →
  registration_outcome (action_project a) (user (action_request a)) s s' r.
Proof.
  destruct a as [rq slug p i| | |rq slug p i| |rq slug p c| |rq slug p i|];
    try done; intros _; cbn [dispatch action_project action_request].
  - unfold comment_create. unfold_M.
    destruct (get_project_deploy_board slug p s) as [[e|[kb b]] s0] eqn:Hb;
      apply get_board_inv in Hb as [-> Hb]; [no_registration|].
    destruct (pdb_comments b); cbn; [|no_registration].
    destruct (comment_is_valid E false (data rq)) as [errors|v];
      [no_registration|].
    match goal with |- context [track_public_member rq p ?s1] =>
      destruct (track_public_member rq p s1) as [res s2] eqn:Ht;
      apply (track_registration _ _ _ s) in Ht; [|done..] end.
    after_registration Ht.
  - unfold issue_reaction_create. unfold_M.
    destruct (get_project_deploy_board slug p s) as [[e|[kb b]] s0] eqn:Hb;
      apply get_board_inv in Hb as [-> Hb]; [no_registration|].
    destruct (pdb_reactions b); cbn; [|no_registration].
    destruct (issue_reaction_is_valid E (data rq)) as [errors|v];
      [no_registration|].
    match goal with |- context [track_public_member rq p ?s1] =>
      destruct (track_public_member rq p s1) as [res s2] eqn:Ht;
      apply (track_registration _ _ _ s) in Ht; [|done..] end.
    after_registration Ht.
  - unfold comment_reaction_create. unfold_M.
    destruct (get_project_deploy_board slug p s) as [[e|[kb b]] s0] eqn:Hb;
      apply get_board_inv in Hb as [-> Hb]; [no_registration|].
    destruct (pdb_reactions b); cbn; [|no_registration].
    destruct (comment_reaction_is_valid E (data rq)) as [errors|v];
      [no_registration|].
    match goal with |- context [track_public_member rq p ?s1] =>
      destruct (track_public_member rq p s1) as [res s2] eqn:Ht;
      apply (track_registration _ _ _ s) in Ht; [|done..] end.
    after_registration Ht.
- unfold vote_create. unfold_M.
  match goal with |- context [objects_get_or_create ?T ?P ?row s] =>
    destruct (objects_get_or_create T P row s) as [[e|[[k v] created]] s0]
      eqn:Hg; apply objects_get_or_create_inv in Hg end.
  { destruct Hg as (-> & -> & _). no_registration. }
  assert (Hs0 : project_members s0 = project_members s ∧
                public_members s0 = public_members s).
  { by destruct Hg as [(_ & -> & _)|(_ & _ & _ & _ & ->)]. }
  destruct Hs0 as [Hs0 Hs0'].
  destruct (track_public_member rq p s0) as [res s2] eqn:Ht.
  apply (track_registration _ _ _ s) in Ht; [|done..].
  after_registration Ht.
Qed.

(** C7: when an identity that is not an active formal member of a
    project, and has no public-member row on it yet, performs a create
    action (comment, issue reaction, comment reaction or vote) that
    returns 201, exactly one [ProjectPublicMember] row for (project,
    identity) is inserted; any later create action of that identity on
    that project leaves the table as it is and does not fail on it. *)
Theorem first_create_registers_once (E : Externals) (a1 : Action)
    (s s1 : Store) (resp1 : Response) :
  is_create a1 = true →
  ¬ active_member s (action_project a1) (user (action_request a1)) →
  public_rows s (action_project a1) (user (action_request a1)) = ∅ →
  dispatch E a1 s = (inr resp1, s1) →
  status resp1 = HTTP_201_CREATED →
  (∃ k, public_rows s1 (action_project a1) (user (action_request a1)) =
        {[k := {| ppm_project := action_project a1;
                  ppm_member := user (action_request a1) |}]}) ∧
  size (public_members s1) = S (size (public_members s)) ∧
  ∀ a2 r2 s2,
    is_create a2 = true →
    action_project a2 = action_project a1 →
    user (action_request a2) = user (action_request a1) →
    dispatch E a2 s1 = (r2, s2) →
    public_members s2 = public_members s1 ∧
    r2 ≠ inl (MultipleObjectsReturned MProjectPublicMember).
Proof.
  intros Hc Hn He Hd H201.
  set (p := action_project a1) in *. set (u := user (action_request a1)) in *.
  apply create_registration in Hd as [Hpm Hd]; [|done]. fold p u in Hd.
  destruct Hd as [(_ & H & _)|(_ & _ & Hins & _)].
  { destruct (H resp1 eq_refl H201) as [?|(k & row & Hk)]; [done|].
    rewrite He in Hk. symmetry in Hk.
    by apply map_non_empty_singleton in Hk. }
  assert (Hone : public_rows s1 p u =
                 {[fresh (dom (public_members s)) :=
                     {| ppm_project := p; ppm_member := u |}]}).
  { unfold public_rows in *. rewrite Hins.
    rewrite map_filter_insert_True by done. by rewrite He, insert_empty. }
  split; [by eexists|]. split.
  { rewrite Hins. apply map_size_insert_None, fresh_lookup_None. }
  intros a2 r2 s2 Hc2 Hp2 Hu2 Hd2.
  apply create_registration in Hd2 as [_ Hd2]; [|done].
  rewrite Hp2, Hu2 in Hd2. fold p u in Hd2.
  destruct Hd2 as [(Hsame & _ & Hmany)|(_ & He2 & _)].
  - split; [done|]. intros Hr. apply Hmany in Hr.
    rewrite Hone, map_size_singleton in Hr. lia.
  - rewrite Hone in He2. by apply map_non_empty_singleton in He2.
Qed.

Lemma first_create_registers_once_witness :
  (∃ k, public_rows after_first_vote 3%positive 7%positive =
        {[k := {| ppm_project := 3%positive; ppm_member := 7%positive |}]}) ∧
  size (public_members after_first_vote) = 1%nat ∧
  ∀ a2 r2 s2,
    is_create a2 = true →
    action_project a2 = 3%positive →
    user (action_request a2) = 7%positive →
    dispatch sample_externals a2 after_first_vote = (r2, s2) →
    public_members s2 = public_members after_first_vote ∧
    r2 ≠ inl (MultipleObjectsReturned MProjectPublicMember).
Proof.
  apply (first_create_registers_once sample_externals first_vote empty_store
           after_first_vote first_vote_response).
  - reflexivity.
  - intros (k & m & Hk & _). cbn in Hk. by rewrite lookup_empty in Hk.
  - reflexivity.
  - vm_compute. reflexivity.
  - reflexivity.
Defined.

(** * Votes *)

Lemma size_le_1_cases {A} (m : gmap pk A) :
  (size m ≤ 1)%nat → m = ∅ ∨ ∃ k v, m = {[k := v]}.
Proof.
  intros Hsz.
  destruct (map_to_list_cases m)
    as [[He _]|[(k & v & He & _)|(a & b & l & _ & H2)]]; [by left|by eauto|lia].
Qed.

Lemma vote_key_true u p i (kv : pk * IssueVote) :
  vote_key u p i kv = true ↔
  iv_actor kv.2 = u ∧ iv_project kv.2 = p ∧ iv_issue kv.2 = i.
Proof.
  unfold vote_key. rewrite !andb_true_iff, !bool_decide_eq_true. tauto.
Qed.

Lemma vote_key_filter s u p i :
  vote_scope s p i →
  objects_filter IssueVotes (vote_key u p i) s = vote_rows s i u.
Proof.
  intros Hscope. unfold objects_filter, vote_rows. apply map_filter_ext.
  intros k v Hk. rewrite vote_key_true. cbn. specialize (Hscope k v Hk).
  tauto.
Qed.

Lemma public_rows_registered s p u :
  public_rows s p u = ∅ →
  public_rows (registered s p u) p u =
  {[fresh (dom (public_members s)) := {| ppm_project := p; ppm_member := u |}]}.
Proof.
  intros He. unfold public_rows, registered in *. cbn.
  rewrite map_filter_insert_True by done. by rewrite He, insert_empty.
Qed.

Lemma vote_create_spec E rq slug p i s :
  vote_scope s p i →
  (size (vote_rows s i (user rq)) ≤ 1)%nat →
  (size (public_rows s p (user rq)) ≤ 1)%nat →
  ∃ resp s' k v,
    vote_create E rq slug p i s = (inr resp, s') ∧
    status resp = HTTP_201_CREATED ∧
    vote_rows s' i (user rq) = {[k := v]} ∧
    iv_vote v = default (JInt 1) (data rq !! "vote") ∧
    (∀ k0 v0, vote_rows s i (user rq) !! k0 = Some v0 → k0 = k) ∧
    vote_scope s' p i ∧
    (size (public_rows s' p (user rq)) ≤ 1)%nat.
Proof.
  intros Hscope Hv Hp. unfold vote_create. unfold_M.
  pose proof (vote_key_filter s (user rq) p i Hscope) as Hkey.
  match goal with |- context [objects_get_or_create ?T ?P ?row s] =>
    destruct (objects_get_or_create T P row s) as [[e|[[k v] created]] s0]
      eqn:Hg; apply objects_get_or_create_inv in Hg end.
  { destruct Hg as (_ & _ & H2). rewrite Hkey in H2. lia. }
  rewrite Hkey in Hg.
  assert (Hs0 : votes s0 !! k = Some v ∧
                (iv_actor v = user rq ∧ iv_project v = p ∧ iv_issue v = i) ∧
                (∀ k' v', votes s0 !! k' = Some v' → iv_issue v' = i →
                          iv_actor v' = user rq → k' = k) ∧
                vote_scope s0 p i ∧
                public_members s0 = public_members s ∧
                project_members s0 = project_members s ∧
                (∀ k0 v0, vote_rows s i (user rq) !! k0 = Some v0 → k0 = k)).
  { destruct Hg as [(_ & -> & Hone)|(_ & -> & -> & Hnone & ->)].
    - pose proof Hone as Hone'.
      apply filter_singleton_inv in Hone as (Hk & [Hi Ha] & Huniq).
      cbn in Hi, Ha. repeat split; try done.
      + by apply (Hscope k v).
      + intros k' v' Hk' Hi' Ha'. by apply (Huniq k' v' Hk').
      + intros k0 v0 H0. rewrite Hone' in H0.
        by apply lookup_singleton_Some in H0 as [? _].
    - cbn. repeat split; try done.
      + apply lookup_insert_eq.
      + intros k' v' Hk' Hi' Ha'.
        destruct (decide (k' = fresh (dom (votes s)))) as [|Hne]; [done|].
        rewrite lookup_insert_ne in Hk' by done.
        by destruct (filter_empty_inv _ _ k' v' Hnone Hk').
      + intros k' v' Hk' Hi'. cbn in Hk'.
        destruct (decide (k' = fresh (dom (votes s)))) as [->|Hne].
        * rewrite lookup_insert_eq in Hk'. by injection Hk' as <-.
        * rewrite lookup_insert_ne in Hk' by done. by apply (Hscope k' v').
      + intros k0 v0 H0. by rewrite Hnone in H0. }
  clear Hg. destruct Hs0 as (Hk & (Ha & Hpj & Hi) & Huniq & Hsc0 & Hpub & Hmem & Hold).
  assert (Hp0 : (size (public_rows s0 p (user rq)) ≤ 1)%nat).
  { by rewrite (public_rows_ext s0 s). }
  destruct (track_public_member rq p s0) as [res s2] eqn:Ht.
  apply track_inv in Ht.
  assert (Hs2 : res = inr tt ∧ votes s2 = votes s0 ∧
                (size (public_rows s2 p (user rq)) ≤ 1)%nat).
  { destruct Ht as [(-> & -> & _)|[(-> & -> & _ & He)|(_ & _ & _ & H2)]].
    - done.
    - split; [done|]. split; [done|].
      by rewrite public_rows_registered, map_size_singleton.
    - exfalso. lia. }
  clear Ht. destruct Hs2 as (-> & Hv2 & Hp2). cbn.
  eexists _, _, k, (set_vote (default (JInt 1) (data rq !! "vote")) v).
  split; [reflexivity|]. split; [done|].
  split; [|split; [done|]; split; [done|]; split].
  - unfold vote_rows. cbn. rewrite Hv2. apply filter_singleton_intro.
    + apply lookup_insert_eq.
    + done.
    + intros k' v' Hk' [Hi' Ha']. cbn in Hi', Ha'.
      destruct (decide (k' = k)) as [|Hne]; [done|].
      rewrite lookup_insert_ne in Hk' by done. by apply (Huniq k' v').
  - intros k' v' Hk' Hi'. cbn in Hk'. rewrite Hv2 in Hk'.
    destruct (decide (k' = k)) as [->|Hne].
    + rewrite lookup_insert_eq in Hk'. by injection Hk' as <-.
    + rewrite lookup_insert_ne in Hk' by done. by apply (Hsc0 k' v').
  - done.
Qed.

(** C6: vote creation is an upsert keyed by (issue, actor). In a store
    that holds at most one vote of the actor on the issue (recorded under
    the project of the path) and at most one public-member row of the
    actor, two successive create requests of the same actor on the same
    issue, each with an integer vote (or none), both return 201 and
    leave exactly one vote row of the actor on the issue, holding the
    value of the second request. *)
Theorem vote_create_is_upsert (E : Externals) (rq1 rq2 : Request)
    (slug : string) (project_id issue_id : pk) (s : Store) (z1 z2 : Z) :
  user rq2 = user rq1 →
  integer_vote rq1 z1 →
  integer_vote rq2 z2 →
  vote_scope s project_id issue_id →
  (size (vote_rows s issue_id (user rq1)) ≤ 1)%nat →
  (size (public_rows s project_id (user rq1)) ≤ 1)%nat →
  ∃ resp1 s1 resp2 s2 k v,
    vote_create E rq1 slug project_id issue_id s = (inr resp1, s1) ∧
    status resp1 = HTTP_201_CREATED ∧
    vote_create E rq2 slug project_id issue_id s1 = (inr resp2, s2) ∧
    status resp2 = HTTP_201_CREATED ∧
    vote_rows s2 issue_id (user rq1) = {[k := v]} ∧
    iv_vote v = JInt z2.
Proof.
  intros Hu _ [_ Hz2] Hsc Hv Hp.
  destruct (vote_create_spec E rq1 slug project_id issue_id s Hsc Hv Hp)
    as (resp1 & s1 & k1 & v1 & Hc1 & H1 & Hrows1 & _ & _ & Hsc1 & Hp1).
  destruct (vote_create_spec E rq2 slug project_id issue_id s1)
    as (resp2 & s2 & k2 & v2 & Hc2 & H2 & Hrows2 & Hval & _).
  - done.
  - by rewrite Hu, Hrows1, map_size_singleton.
  - by rewrite Hu.
  - rewrite Hu in Hrows2. exists resp1, s1, resp2, s2, k2, v2.
    repeat split; try done. rewrite Hval.
    by destruct Hz2 as [->|[-> ->]].
Qed.

Lemma vote_create_is_upsert_witness :
  ∃ resp1 s1 resp2 s2 k v,
    vote_create sample_externals (visitor_vote 1) "acme" 3%positive
      5%positive empty_store = (inr resp1, s1) ∧
    status resp1 = HTTP_201_CREATED ∧
    vote_create sample_externals (visitor_vote (-1)) "acme" 3%positive
      5%positive s1 = (inr resp2, s2) ∧
    status resp2 = HTTP_201_CREATED ∧
    vote_rows s2 5%positive 7%positive = {[k := v]} ∧
    iv_vote v = JInt (-1).
Proof.
  apply (vote_create_is_upsert sample_externals (visitor_vote 1)
           (visitor_vote (-1)) "acme" 3%positive 5%positive empty_store
           1 (-1)).
  - reflexivity.
  - split; [lia|]. left. reflexivity.
  - split; [lia|]. left. reflexivity.
  - intros k v Hk. cbn in Hk. by rewrite lookup_empty in Hk.
  - vm_compute. lia.
  - vm_compute. lia.
Defined.

(** C10: a vote create request whose body has no [vote] field returns
    201 and leaves the actor's vote on the issue at 1; a vote row the
    actor already had on the issue is that row, so its earlier value is
    overwritten. The store is as in C6. *)
Theorem vote_create_defaults_to_one (E : Externals) (rq : Request)
    (slug : string) (project_id issue_id : pk) (s : Store) :
  data rq !! "vote" = None →
  vote_scope s project_id issue_id →
  (size (vote_rows s issue_id (user rq)) ≤ 1)%nat →
  (size (public_rows s project_id (user rq)) ≤ 1)%nat →
  ∃ resp s' k v,
    vote_create E rq slug project_id issue_id s = (inr resp, s') ∧
    status resp = HTTP_201_CREATED ∧
    vote_rows s' issue_id (user rq) = {[k := v]} ∧
    iv_vote v = JInt 1 ∧
    ∀ k0 v0, vote_rows s issue_id (user rq) !! k0 = Some v0 → k0 = k.
Proof.
  intros Hd Hsc Hv Hp.
  destruct (vote_create_spec E rq slug project_id issue_id s Hsc Hv Hp)
    as (resp & s' & k & v & Hc & H201 & Hrows & Hval & Hold & _).
  rewrite Hd in Hval. by exists resp, s', k, v.
Qed.

Lemma vote_create_defaults_to_one_witness :
  ∃ resp s' k v,
    vote_create sample_externals bare_request "acme" 3%positive 5%positive
      store_with_downvote = (inr resp, s') ∧
    status resp = HTTP_201_CREATED ∧
    vote_rows s' 5%positive 7%positive = {[k := v]} ∧
    iv_vote v = JInt 1 ∧
    ∀ k0 v0, vote_rows store_with_downvote 5%positive 7%positive !! k0
             = Some v0 → k0 = k.
Proof.
  apply (vote_create_defaults_to_one sample_externals bare_request "acme"
           3%positive 5%positive store_with_downvote).
  - reflexivity.
  - intros k v Hk Hi. cbn in Hk.
    apply lookup_singleton_Some in Hk as [_ <-]. reflexivity.
  - vm_compute. lia.
  - vm_compute. lia.
Defined.

(** * Ownership at the lookup *)

Ltac split_lookup H :=
  cbn in H; rewrite ?andb_true_iff, ?bool_decide_eq_true in H; destruct_and?.

Lemma non_owner_not_found E a s :
  is_update a || is_destroy a = true →
  gate_allows a s → not_owner a s →
  dispatch E a s =
  (inl (DoesNotExist (resource_model (action_resource a))), s).
Proof.
  intros Hk (b & Hpub & Hcap) Hno.
  apply get_board_published in Hpub as [kb Hget].
  destruct a as [|rq slug p i k|rq slug p i k| |rq slug p i c| |rq slug p c r
                 | |rq slug p i]; try done;
    cbn in Hcap, Hget, Hno |- *;
    unfold comment_partial_update, comment_destroy, issue_reaction_destroy,
      comment_reaction_destroy, vote_destroy; unfold_M;
    rewrite ?Hget, ?Hcap; cbn.
  - rewrite (objects_get_none IssueComments); [done|].
    apply filter_empty_intro. intros k' c Hk' HP. split_lookup HP.
    subst. by eapply Hno.
  - rewrite (objects_get_none IssueComments); [done|].
    apply filter_empty_intro. intros k' c Hk' HP. split_lookup HP.
    subst. by eapply Hno.
  - rewrite (objects_get_none IssueReactions); [done|].
    apply filter_empty_intro. intros k' c' Hk' HP. split_lookup HP.
    by eapply Hno.
  - rewrite (objects_get_none CommentReactions); [done|].
    apply filter_empty_intro. intros k' c' Hk' HP. split_lookup HP.
    by eapply Hno.
  - rewrite (objects_get_none IssueVotes); [done|].
    apply filter_empty_intro. intros k' c' Hk' HP. split_lookup HP.
    by eapply Hno.
Qed.

Lemma others_kept_refl u s : others_kept u s s.
Proof. by repeat split. Qed.

(** The gate and the lookup of an update or delete. *)
Ltac step_board :=
  match goal with
  | |- context [get_project_deploy_board ?slug ?p ?s] =>
      let Hb := fresh "Hb" in
      destruct (get_project_deploy_board slug p s) as [[?e|[?kb ?b]] ?s0]
        eqn:Hb; apply get_board_inv in Hb as [-> Hb]
  end.

Ltac step_get :=
  match goal with
  | |- context [objects_get ?T ?P ?s] =>
      let Hg := fresh "Hg" in
      destruct (objects_get T P s) as [[?e|[?k ?row]] ?s0] eqn:Hg;
      apply objects_get_inv in Hg as [-> Hg]
  end.

(** After the write of a found row: the row is the requester's, so
    the rows of the others have different keys. *)
Ltac kept_after_write Hk :=
  intros [= <- <-]; unfold others_kept; cbn; split_and!; try done;
  intros k' c' Hk' Hne;
  (rewrite lookup_insert_ne || rewrite lookup_delete_ne); [done|];
  intros ->; cbn in Hk; rewrite Hk in Hk'; injection Hk' as <-; done.

Lemma owned_action_keeps_others E a s r s' :
  is_update a || is_destroy a = true →
  dispatch E a s = (r, s') →
  others_kept (user (action_request a)) s s'.
Proof.
  intros Hk.
  destruct a as [|rq slug p i k|rq slug p i k| |rq slug p i c| |rq slug p c r0
                 | |rq slug p i]; try done; clear Hk;
    cbn [dispatch action_request];
    unfold comment_partial_update, comment_destroy, issue_reaction_destroy,
      comment_reaction_destroy, vote_destroy; unfold_M.
  - step_board; [intros [= <- <-]; apply others_kept_refl|].
    destruct (pdb_comments b); cbn;
      [|intros [= <- <-]; apply others_kept_refl].
    step_get; [intros [= <- <-]; apply others_kept_refl|].
    apply filter_singleton_inv in Hg as (Hk & HP & _). split_lookup HP.
    destruct (comment_is_valid E true (data rq));
      [intros [= <- <-]; apply others_kept_refl|].
    kept_after_write Hk.
  - step_board; [intros [= <- <-]; apply others_kept_refl|].
    destruct (pdb_comments b); cbn;
      [|intros [= <- <-]; apply others_kept_refl].
    step_get; [intros [= <- <-]; apply others_kept_refl|].
    apply filter_singleton_inv in Hg as (Hk & HP & _). split_lookup HP.
    kept_after_write Hk.
  - step_board; [intros [= <- <-]; apply others_kept_refl|].
    destruct (pdb_reactions b); cbn;
      [|intros [= <- <-]; apply others_kept_refl].
    step_get; [intros [= <- <-]; apply others_kept_refl|].
    apply filter_singleton_inv in Hg as (Hk & HP & _). split_lookup HP.
    kept_after_write Hk.
  - step_board; [intros [= <- <-]; apply others_kept_refl|].
    destruct (pdb_reactions b); cbn;
      [|intros [= <- <-]; apply others_kept_refl].
    step_get; [intros [= <- <-]; apply others_kept_refl|].
    apply filter_singleton_inv in Hg as (Hk & HP & _). split_lookup HP.
    kept_after_write Hk.
  - step_get; [intros [= <- <-]; apply others_kept_refl|].
    apply filter_singleton_inv in Hg as (Hk & HP & _). split_lookup HP.
    kept_after_write Hk.
Qed.

(** No handler answers 403. *)
Lemma never_forbidden E a s resp s' :
  dispatch E a s = (inr resp, s') → status resp ≠ HTTP_403_FORBIDDEN.
Proof.
  destruct a; cbn [dispatch];
    unfold comment_create, comment_partial_update, comment_destroy,
      issue_reaction_create, issue_reaction_destroy, comment_reaction_create,
      comment_reaction_destroy, vote_create, vote_destroy; unfold_M;
    repeat first
      [ progress cbn
      | match goal with
        | |- context [match ?x with _ => _ end] => destruct x
        | |- context [if ?x then _ else _] => destruct x
        end ];
    intros [= <- <-]; done.
Qed.

(** C8: an update or delete of a comment, reaction or vote looks the
    row up with [actor = request.user] in the filter. Whatever the
    outcome, the rows of other actors stay as they are (so deleting a
    reaction by its code removes at most the requester's own row) and
    the answer is never 403; and when the board lets the request
    through and the requester owns none of the addressed rows, the
    lookup raises [DoesNotExist] for the model and nothing is
    written. *)
Theorem ownership_enforced_at_lookup (E : Externals) (a : Action)
    (s s' : Store) (r : exn + Response) :
  is_update a || is_destroy a = true →
  dispatch E a s = (r, s') →
  others_kept (user (action_request a)) s s' ∧
  (∀ resp, r = inr resp → status resp ≠ HTTP_403_FORBIDDEN) ∧
  (gate_allows a s → not_owner a s →
   r = inl (DoesNotExist (resource_model (action_resource a))) ∧ s' = s).
Proof.
  intros Hk Hd. split; [by eapply owned_action_keeps_others|]. split.
  - intros resp ->. by eapply never_forbidden.
  - intros Hgate Hno.
    rewrite (non_owner_not_found E a s Hk Hgate Hno) in Hd.
    by injection Hd as <- <-.
Qed.

Lemma ownership_enforced_at_lookup_witness :
  gate_allows stranger_unreacts store_two_reactions ∧
  not_owner stranger_unreacts store_two_reactions ∧
  others_kept 9%positive store_two_reactions
    (dispatch sample_externals stranger_unreacts store_two_reactions).2 ∧
  (dispatch sample_externals stranger_unreacts store_two_reactions).1
  = inl (DoesNotExist MIssueReaction) ∧
  (dispatch sample_externals stranger_unreacts store_two_reactions).2
  = store_two_reactions.
Proof.
  assert (Hgate : gate_allows stranger_unreacts store_two_reactions).
  { exists (board true true true).
    split; [by apply with_board_published | reflexivity]. }
  assert (Hno : not_owner stranger_unreacts store_two_reactions).
  { intros k r Hk _ _. cbn in Hk.
    apply lookup_insert_Some in Hk as [[_ <-]|[_ Hk]]; [done|].
    by apply lookup_singleton_Some in Hk as [_ <-]. }
  destruct (ownership_enforced_at_lookup sample_externals stranger_unreacts
              store_two_reactions _ _ eq_refl (surjective_pairing _))
    as (Hkept & _ & Hnotfound).
  split; [exact Hgate|]. split; [exact Hno|]. split; [exact Hkept|].
  exact (Hnotfound Hgate Hno).
Defined.

(** Visitor 7 removes the "+1" on issue 5: the "+1" of visitor 8 on the
    same issue stays. *)
Example reaction_destroy_spares_other_actor :
  answered (dispatch sample_externals visitor_unreacts store_two_reactions).1
  = Some HTTP_204_NO_CONTENT ∧
  map_to_list (issue_reactions
    (dispatch sample_externals visitor_unreacts store_two_reactions).2)
  = [(2%positive, plus_one 8%positive 20)].
Proof. split; vm_compute; reflexivity. Qed.


(** * Deletion *)

Lemma comment_snapshot_has_id k c :
  IssueCommentSerializer_data k c !! "id" = Some (str_id k).
Proof. apply lookup_insert_eq. Qed.

(** A 204 from a destroy handler means that the board let the request
    through and that the lookup matched exactly one row. *)
Lemma destroy_found E a s resp s' :
  is_destroy a = true →
  dispatch E a s = (inr resp, s') →
  status resp = HTTP_204_NO_CONTENT →
  ∃ k, destroy_target a s = {[k]} ∧
       (action_resource a ≠ SVote → gate_allows a s).
Proof.
  intros Hk.
  destruct a as [| |rq slug p i k| |rq slug p i c| |rq slug p c r0
                 | |rq slug p i]; try done; clear Hk;
    cbn [dispatch destroy_target action_resource];
    unfold gate_allows, gate_passes;
    cbn [action_resource action_slug action_project capability];
    unfold comment_destroy, issue_reaction_destroy,
      comment_reaction_destroy, vote_destroy; unfold_M.
  - step_board; [done|].
    destruct (pdb_comments b) eqn:Hcap; cbn; [|by intros [= <- <-]].
    step_get; [done|]. intros _ _. exists k0. split; [|by exists b].
    transitivity (dom ({[k0 := row]} : gmap pk IssueComment));
      [by rewrite <- Hg | apply dom_singleton_L].
  - step_board; [done|].
    destruct (pdb_reactions b) eqn:Hcap; cbn; [|by intros [= <- <-]].
    step_get; [done|]. intros _ _. exists k. split; [|by exists b].
    transitivity (dom ({[k := row]} : gmap pk IssueReaction));
      [by rewrite <- Hg | apply dom_singleton_L].
  - step_board; [done|].
    destruct (pdb_reactions b) eqn:Hcap; cbn; [|by intros [= <- <-]].
    step_get; [done|]. intros _ _. exists k. split; [|by exists b].
    transitivity (dom ({[k := row]} : gmap pk CommentReaction));
      [by rewrite <- Hg | apply dom_singleton_L].
  - step_get; [done|]. intros _ _. exists k. split; [|done].
    transitivity (dom ({[k := row]} : gmap pk IssueVote));
      [by rewrite <- Hg | apply dom_singleton_L].
Qed.

(** The end of a destroy run, once the one row is at hand. *)
Ltac deleted_row :=
  cbn; eexists; split; [reflexivity|];
  split; [reflexivity|]; eexists _, _;
  split; [cbn; by rewrite <- app_assoc|];
  split; [reflexivity|]; split; [reflexivity|].

(** When the board lets the request through and the lookup matches
    exactly one row, a destroy handler runs to its end. *)
Lemma destroy_runs E a s k :
  is_destroy a = true →
  (action_resource a ≠ SVote → gate_allows a s) →
  destroy_target a s = {[k]} →
  ∃ s', dispatch E a s
        = (inr {| body := None; status := HTTP_204_NO_CONTENT |}, s') ∧
        deleted_by a k s s'
          (inr {| body := None; status := HTTP_204_NO_CONTENT |}).
Proof.
  intros Hk.
  destruct a as [| |rq slug p i k0| |rq slug p i c| |rq slug p c r0
                 | |rq slug p i]; try done; clear Hk;
    intros Hgate Ht; cbn [destroy_target] in Ht;
    apply dom_singleton_inv_L in Ht as [row Hrow];
    unfold comment_destroy_lookup, issue_reaction_destroy_lookup,
      comment_reaction_destroy_lookup, vote_destroy_lookup in Hrow;
    pose proof Hrow as Hrow';
    apply filter_singleton_inv in Hrow' as (Hlk & HP & _);
    cbn in Hlk; unfold deleted_by;
    cbn [dispatch action_resource resource_model deleted_type id_key
         deleted_snapshot own_row_deleted];
    unfold comment_destroy, issue_reaction_destroy,
      comment_reaction_destroy, vote_destroy; unfold_M.
  - destruct (Hgate ltac:(done)) as (b & Hpub & Hcap). cbn in Hpub, Hcap.
    apply get_board_published in Hpub as [kb ->]. rewrite Hcap. cbn.
    rewrite (objects_get_one IssueComments _ s k row Hrow).
    deleted_row. rewrite Hlk. cbn.
    split; [done|]. split; [apply comment_snapshot_has_id | done].
  - destruct (Hgate ltac:(done)) as (b & Hpub & Hcap). cbn in Hpub, Hcap.
    apply get_board_published in Hpub as [kb ->]. rewrite Hcap. cbn.
    rewrite (objects_get_one IssueReactions _ s k row Hrow).
    deleted_row. rewrite Hlk. cbn.
    split_lookup HP. subst.
    split; [done|]. split; [|done].
    rewrite lookup_insert_ne by done. apply lookup_insert_eq.
  - destruct (Hgate ltac:(done)) as (b & Hpub & Hcap). cbn in Hpub, Hcap.
    apply get_board_published in Hpub as [kb ->]. rewrite Hcap. cbn.
    rewrite (objects_get_one CommentReactions _ s k row Hrow).
    deleted_row. rewrite Hlk. cbn.
    split_lookup HP. subst.
    split; [done|]. split; [|done].
    rewrite lookup_insert_ne by done. apply lookup_insert_eq.
  - rewrite (objects_get_one IssueVotes _ s k row Hrow).
    deleted_row. rewrite Hlk. cbn.
    split; [done|]. split; [|done].
    rewrite lookup_insert_ne by done. apply lookup_insert_eq.
Qed.

(** C9: a destroy request whose lookup matches exactly one row, on a
    board that lets it through (the vote handler asks no board), answers
    204 without a body: nothing between the lookup and the removal can
    stop it. It makes two calls, in this order: [issue_activity.delay]
    with the type "<resource>.activity.deleted" and, as
    [current_instance], the snapshot of the row as the store held it,
    which carries the id of the row; then the delete, after which the
    row is gone from its table. Every 204 of a destroy request comes
    about in this way. *)
Theorem delete_emits_then_removes (E : Externals) (a : Action)
    (s s' : Store) (r : exn + Response) :
  is_destroy a = true →
  dispatch E a s = (r, s') →
  (∀ k, (action_resource a ≠ SVote → gate_allows a s) →
        destroy_target a s = {[k]} →
        deleted_by a k s s' r) ∧
  (∀ resp, r = inr resp → status resp = HTTP_204_NO_CONTENT →
           ∃ k, destroy_target a s = {[k]} ∧ deleted_by a k s s' r).
Proof.
  intros Hk Hd. split.
  - intros k Hgate Ht.
    destruct (destroy_runs E a s k Hk Hgate Ht) as (s'' & Hd' & Hdel).
    rewrite Hd in Hd'. by injection Hd' as -> ->.
  - intros resp -> H204.
    destruct (destroy_found E a s resp s' Hk Hd H204) as (k & Ht & Hgate).
    exists k. split; [done|].
    destruct (destroy_runs E a s k Hk Hgate Ht) as (s'' & Hd' & Hdel).
    rewrite Hd in Hd'. by injection Hd' as -> ->.
Qed.

Lemma delete_emits_then_removes_witness :
  gate_allows visitor_unreacts store_two_reactions ∧
  destroy_target visitor_unreacts store_two_reactions = {[1%positive]} ∧
  deleted_by visitor_unreacts 1%positive store_two_reactions
    (dispatch sample_externals visitor_unreacts store_two_reactions).2
    (dispatch sample_externals visitor_unreacts store_two_reactions).1.
Proof.
  assert (Hgate : gate_allows visitor_unreacts store_two_reactions).
  { exists (board true true true).
    split; [by apply with_board_published | reflexivity]. }
  assert (Ht : destroy_target visitor_unreacts store_two_reactions
               = {[1%positive]}).
  { vm_compute. reflexivity. }
  split; [exact Hgate|]. split; [exact Ht|].
  destruct (delete_emits_then_removes sample_externals visitor_unreacts
              store_two_reactions _ _ eq_refl (surjective_pairing _))
    as [Hrun _].
  exact (Hrun 1%positive (λ _, Hgate) Ht).
Defined.

(** * Where the handlers leave the specification *)

(** An unpublished store has no board for any pair. *)
Lemma no_boards_unpublished s slug project_id :
  deploy_boards s = ∅ → unpublished s slug project_id.
Proof. intros He k b Hk. by rewrite He, lookup_empty in Hk. Qed.

(** C1: the vote handlers never read the deploy board. Without any
    board, and likewise with a board whose [votes] flag is off, [create]
    answers 201 and stores the vote; without any board, [destroy]
    answers 204 and removes the vote. *)
Theorem vote_handlers_skip_the_gate :
  unpublished empty_store "acme" 3%positive ∧
  answered (vote_create sample_externals (visitor_vote 1) "acme" 3%positive
              5%positive empty_store).1 = Some HTTP_201_CREATED ∧
  map_to_list (votes (vote_create sample_externals (visitor_vote 1) "acme"
                        3%positive 5%positive empty_store).2)
  = [(1%positive, {| iv_workspace := "acme"; iv_project := 3%positive;
                     iv_issue := 5%positive; iv_actor := 7%positive;
                     iv_vote := JInt 1 |})] ∧
  published store_flags_off "acme" 3%positive (board false false false) ∧
  answered (vote_create sample_externals (visitor_vote 1) "acme" 3%positive
              5%positive store_flags_off).1 = Some HTTP_201_CREATED ∧
  unpublished store_with_downvote "acme" 3%positive ∧
  answered (vote_destroy bare_request "acme" 3%positive 5%positive
              store_with_downvote).1 = Some HTTP_204_NO_CONTENT ∧
  votes (vote_destroy bare_request "acme" 3%positive 5%positive
           store_with_downvote).2 = ∅.
Proof.
  split; [by apply no_boards_unpublished|].
  split; [vm_compute; reflexivity|].
  split; [vm_compute; reflexivity|].
  split; [by apply with_board_published|].
  split; [vm_compute; reflexivity|].
  split; [by apply no_boards_unpublished|].
  split; vm_compute; reflexivity.
Qed.

(** What a successful partial update emits: the event follows the
    save, and its [current_instance] is the serialized row as the save
    left it. *)
Lemma partial_update_event E rq slug project_id issue_id k s resp s' :
  comment_partial_update E rq slug project_id issue_id k s = (inr resp, s') →
  status resp = HTTP_200_OK →
  ∃ c' ev,
    comments s' !! k = Some c' ∧
    trace s' = trace s ++ [Saved MIssueComment k; Delayed ev] ∧
    ev_type ev = "comment.activity.updated" ∧
    ev_requested_data ev = Some (data rq) ∧
    ev_current_instance ev = Some (IssueCommentSerializer_data k c').
Proof.
  unfold comment_partial_update. unfold_M.
  step_board; [done|].
  destruct (pdb_comments b); cbn; [|by intros [= <- <-]].
  step_get; [done|].
  apply filter_singleton_inv in Hg as (Hk & HP & _). split_lookup HP. subst.
  destruct (comment_is_valid E true (data rq)); [by intros [= <- <-]|].
  intros [= <- <-] _. eexists _, _. cbn.
  split; [apply lookup_insert_eq|]. split; [by rewrite <- app_assoc|]. done.
Qed.

(** C2: the event of a partial update has the type
    "comment.activity.updated" and the raw payload as [requested_data],
    but its [current_instance] is serialized after [serializer.save()]
    has changed the instance: editing "old" to "new" emits a snapshot
    that reads "new". *)
Theorem partial_update_snapshot_is_post_update :
  comments store_with_comment !! 1%positive = Some (comment_with "old") ∧
  answered (comment_partial_update sample_externals edit_request "acme"
              3%positive 5%positive 1%positive store_with_comment).1
  = Some HTTP_200_OK ∧
  delayed (comment_partial_update sample_externals edit_request "acme"
             3%positive 5%positive 1%positive store_with_comment).2
  = [ {| ev_type := "comment.activity.updated";
         ev_requested_data := Some (data edit_request);
         ev_actor_id := "7";
         ev_issue_id := Some "5";
         ev_project_id := "3";
         ev_current_instance :=
           Some (IssueCommentSerializer_data 1%positive (comment_with "new"));
         ev_epoch := 400 |} ] ∧
  IssueCommentSerializer_data 1%positive (comment_with "new")
  ≠ IssueCommentSerializer_data 1%positive (comment_with "old").
Proof.
  split; [reflexivity|].
  split; [vm_compute; reflexivity|].
  split; [vm_compute; reflexivity|].
  intros Heq. apply (f_equal (λ o : jobject, o !! "comment_html")) in Heq.
  vm_compute in Heq. discriminate.
Qed.

(** C3: the retrieve endpoint does not look at the deploy boards. In a
    store without any board it returns the issue. *)
Theorem retrieve_ignores_the_board :
  unpublished store_unpublished "acme" 3%positive ∧
  issue_retrieve "acme" 3%positive 5%positive store_unpublished
  = (inr {| body := Some (IssuePublicSerializer_data 5%positive draft_issue);
            status := HTTP_200_OK |},
     store_unpublished).
Proof.
  split; [by apply no_boards_unpublished|]. vm_compute. reflexivity.
Qed.

(** ** The listing endpoint *)

(** The rows of the queryset the handler composes first satisfy the base
    predicate and carry the three counters, none of them negative. *)
Lemma composed_queryset_rows L slug project_id s row :
  row ∈ composed_issue_queryset L slug project_id s →
  i_project (row_issue row) = project_id ∧
  i_workspace (row_issue row) = slug ∧
  i_is_draft (row_issue row) = true ∧
  ∃ links attachments children,
    link_count row = Some links ∧ attachment_count row = Some attachments ∧
    sub_issues_count row = Some children ∧
    0 ≤ links ∧ 0 ≤ attachments ∧ 0 ≤ children.
Proof.
  unfold composed_issue_queryset. intros Hrow.
  apply list_elem_of_fmap in Hrow as ([k i] & -> & Hin).
  apply elem_of_map_to_list in Hin.
  apply map_lookup_filter_Some in Hin as [_ HP]. split_lookup HP. cbn.
  repeat split; try done.
  eexists _, _, _. repeat split; unfold subquery_count; lia.
Qed.

(** What the handler hands to the paginator for a published project is
    built from the inherited [get_queryset] alone. *)
Lemma listing_queryset L GET slug project_id s b :
  published s slug project_id b →
  ∃ grouping count_filter,
    project_issues_get L GET slug project_id s =
    Paginate
      (issue_queryset_grouper L
         (order_issue_queryset L
            (filter (λ r, issue_filters L GET r = true) (get_queryset L s))
            (default "-created_at" (GET !! "order_by")))
         (GET !! "group_by"))
      grouping count_filter.
Proof.
  intros (k & Hk & Hb & _). unfold project_issues_get.
  rewrite bool_decide_eq_true_2.
  - cbn. destruct (GET !! "group_by") as [[|]|]; by eexists _, _.
  - apply filter_nonempty_iff. exists k, b. split; [done|].
    cbn. by apply board_lookup_true.
Qed.

(** C4: the queryset with the base predicate and the counters is
    overwritten before it is used. With an inherited [get_queryset] that
    yields every issue, the listing of published project 3 hands the
    paginator an issue of another project and workspace that is not a
    draft, and no row carries a counter; the composed queryset held
    issue 5 alone, with its three counters at zero. *)
Theorem listing_drops_composed_queryset :
  published store_published "acme" 3%positive (board true true true) ∧
  composed_issue_queryset sample_listing "acme" 3%positive store_published
  = [ {| row_id := 5%positive; row_issue := draft_issue;
         link_count := Some 0; attachment_count := Some 0;
         sub_issues_count := Some 0 |} ] ∧
  project_issues_get sample_listing ∅ "acme" 3%positive store_published
  = Paginate [bare_row (5%positive, draft_issue);
              bare_row (6%positive, foreign_issue)] None None.
Proof.
  split; [by apply with_board_published|].
  split; vm_compute; reflexivity.
Qed.

(** * The gate of the comment and reaction handlers *)

Ltac unfold_handlers :=
  unfold comment_create, comment_partial_update, comment_destroy,
    issue_reaction_create, issue_reaction_destroy, comment_reaction_create,
    comment_reaction_destroy, vote_create, vote_destroy.

(** X1: every create, update and delete of comments and reactions on a
    project whose board has the capability switched off answers 400
    with an error message and leaves the store, trace included, as it
    was. *)
Theorem capability_off_rejects (E : Externals) (a : Action) (s : Store)
    (b : ProjectDeployBoard) :
  action_resource a ≠ SVote →
  published s (action_slug a) (action_project a) b →
  capability (action_resource a) b = false →
  ∃ msg, dispatch E a s = (inr (error_response msg HTTP_400_BAD_REQUEST), s).
Proof.
  intros Hres Hpub Hcap. apply get_board_published in Hpub as [kb Hget].
  destruct a; try done; cbn in Hget, Hcap |- *;
    unfold_handlers; unfold_M; rewrite Hget, Hcap; cbn; by eexists.
Qed.

Lemma capability_off_rejects_witness :
  ∃ msg,
    dispatch sample_externals
      (CommentCreate edit_request "acme" 3%positive 5%positive)
      store_flags_off
    = (inr (error_response msg HTTP_400_BAD_REQUEST), store_flags_off).
Proof.
  apply (capability_off_rejects sample_externals
           (CommentCreate edit_request "acme" 3%positive 5%positive)
           store_flags_off (board false false false)).
  - done.
  - by apply with_board_published.
  - reflexivity.
Defined.

(** X2: the same requests on a project without a deploy board raise
    [ProjectDeployBoard.DoesNotExist] before anything is written. *)
Theorem unpublished_mutation_raises (E : Externals) (a : Action) (s : Store) :
  action_resource a ≠ SVote →
  unpublished s (action_slug a) (action_project a) →
  dispatch E a s = (inl (DoesNotExist MProjectDeployBoard), s).
Proof.
  intros Hres Hun. apply get_board_unpublished in Hun.
  destruct a; try done; cbn in Hun |- *;
    unfold_handlers; unfold_M; by rewrite Hun.
Qed.

Lemma unpublished_mutation_raises_witness :
  dispatch sample_externals
    (CommentCreate edit_request "acme" 3%positive 5%positive) empty_store
  = (inl (DoesNotExist MProjectDeployBoard), empty_store).
Proof.
  apply (unpublished_mutation_raises sample_externals
           (CommentCreate edit_request "acme" 3%positive 5%positive)
           empty_store).
  - done.
  - by apply no_boards_unpublished.
Defined.

(** * What a handler writes *)

Ltac frame_done :=
  intros [= <- <-]; unfold fixed_tables_kept, other_resources_kept; cbn;
  repeat split; try done.

Ltac step_track :=
  match goal with
  | |- context [track_public_member ?rq ?p ?s1] =>
      let Ht := fresh "Ht" in
      destruct (track_public_member rq p s1) as [?res ?s2] eqn:Ht;
      apply track_inv in Ht;
      destruct Ht as [(-> & -> & _)|[(-> & -> & _)|(-> & -> & _)]]
  end.

Lemma dispatch_frame (E : Externals) (a : Action) (s s' : Store)
    (r : exn + Response) :
  dispatch E a s = (r, s') →
  fixed_tables_kept s s' ∧
  other_resources_kept a s s' ∧
  (is_create a = false → public_members s' = public_members s).
Proof.
  destruct a as [rq slug p i|rq slug p i k|rq slug p i k|rq slug p i
                 |rq slug p i c|rq slug p c|rq slug p c r0|rq slug p i
                 |rq slug p i];
    cbn [dispatch action_resource is_create]; unfold_handlers; unfold_M.
  - step_board; [frame_done|].
    destruct (pdb_comments b); cbn; [|frame_done].
    destruct (comment_is_valid E false (data rq)); [frame_done|].
    step_track; cbn; frame_done.
  - step_board; [frame_done|].
    destruct (pdb_comments b); cbn; [|frame_done].
    step_get; [frame_done|].
    destruct (comment_is_valid E true (data rq)); frame_done.
  - step_board; [frame_done|].
    destruct (pdb_comments b); cbn; [|frame_done].
    step_get; [frame_done|]. cbn. frame_done.
  - step_board; [frame_done|].
    destruct (pdb_reactions b); cbn; [|frame_done].
    destruct (issue_reaction_is_valid E (data rq)); [frame_done|].
    step_track; cbn; frame_done.
  - step_board; [frame_done|].
    destruct (pdb_reactions b); cbn; [|frame_done].
    step_get; [frame_done|]. cbn. frame_done.
  - step_board; [frame_done|].
    destruct (pdb_reactions b); cbn; [|frame_done].
    destruct (comment_reaction_is_valid E (data rq)); [frame_done|].
    step_track; cbn; frame_done.
  - step_board; [frame_done|].
    destruct (pdb_reactions b); cbn; [|frame_done].
    step_get; [frame_done|]. cbn. frame_done.
  - match goal with |- context [objects_get_or_create ?T ?P ?row s] =>
      destruct (objects_get_or_create T P row s) as [[e|[[k v] created]] s0]
        eqn:Hg; apply objects_get_or_create_inv in Hg end.
    { destruct Hg as (_ & -> & _). frame_done. }
    destruct Hg as [(_ & -> & _)|(_ & _ & _ & _ & ->)];
      step_track; cbn; frame_done.
  - step_get; [frame_done|]. cbn. frame_done.
Qed.

(** X3: a handler writes the table of its own sub-resource, the
    public-member table (create handlers only) and the trace. The deploy
    boards, the project members, the issues with their links and
    attachments, and the tables of the other three sub-resources come
    out of every request as they went in, whatever the outcome; of the
    comment reactions after a comment delete nothing is said. *)
Theorem handlers_write_own_table (E : Externals) (a : Action) (s s' : Store)
    (r : exn + Response) :
  dispatch E a s = (r, s') →
  fixed_tables_kept s s' ∧
  other_resources_kept a s s' ∧
  (is_create a = false → public_members s' = public_members s).
Proof. apply dispatch_frame. Qed.

(** * Answers and events *)

Ltac answer_done :=
  first
    [ by intros [=]
    | intros [= <- <-];
      first
        [ by left
        | right; split; [done|]; eexists; split;
          [ unfold delayed, registered; cbn; rewrite ?omap_app; cbn;
            rewrite ?app_nil_r; reflexivity
          | repeat split; try done; by eexists ] ] ].

(** What an answer says about the store: a 400 left it as it was; any
    other answer followed exactly one [issue_activity.delay] call, made
    in the name of the requester, for the project of the path, stamped
    with the time of the request, with [current_instance] empty for a
    create and filled for an update or delete. *)
Lemma dispatch_answer E a s resp s' :
  dispatch E a s = (inr resp, s') →
  (status resp = HTTP_400_BAD_REQUEST ∧ s' = s) ∨
  (status resp ≠ HTTP_400_BAD_REQUEST ∧
   ∃ ev, delayed s' = delayed s ++ [ev] ∧
         ev_actor_id ev = pretty (user (action_request a)) ∧
         ev_project_id ev = pretty (action_project a) ∧
         ev_epoch ev = now (action_request a) ∧
         (is_create a = true → ev_current_instance ev = None) ∧
         (is_create a = false → is_Some (ev_current_instance ev))).
Proof.
  destruct a as [rq slug p i|rq slug p i k|rq slug p i k|rq slug p i
                 |rq slug p i c|rq slug p c|rq slug p c r0|rq slug p i
                 |rq slug p i];
    cbn [dispatch action_request action_project is_create];
    unfold_handlers; unfold_M.
  - step_board; [answer_done|].
    destruct (pdb_comments b); cbn; [|answer_done].
    destruct (comment_is_valid E false (data rq)); [answer_done|].
    step_track; cbn; answer_done.
  - step_board; [answer_done|].
    destruct (pdb_comments b); cbn; [|answer_done].
    step_get; [answer_done|].
    destruct (comment_is_valid E true (data rq)); answer_done.
  - step_board; [answer_done|].
    destruct (pdb_comments b); cbn; [|answer_done].
    step_get; [answer_done|]. cbn. answer_done.
  - step_board; [answer_done|].
    destruct (pdb_reactions b); cbn; [|answer_done].
    destruct (issue_reaction_is_valid E (data rq)); [answer_done|].
    step_track; cbn; answer_done.
  - step_board; [answer_done|].
    destruct (pdb_reactions b); cbn; [|answer_done].
    step_get; [answer_done|]. cbn. answer_done.
  - step_board; [answer_done|].
    destruct (pdb_reactions b); cbn; [|answer_done].
    destruct (comment_reaction_is_valid E (data rq)); [answer_done|].
    step_track; cbn; answer_done.
  - step_board; [answer_done|].
    destruct (pdb_reactions b); cbn; [|answer_done].
    step_get; [answer_done|]. cbn. answer_done.
  - match goal with |- context [objects_get_or_create ?T ?P ?row s] =>
      destruct (objects_get_or_create T P row s) as [[e|[[k v] created]] s0]
        eqn:Hg; apply objects_get_or_create_inv in Hg end.
    { answer_done. }
    destruct Hg as [(_ & -> & _)|(_ & _ & _ & _ & ->)];
      step_track; cbn; answer_done.
  - step_get; [answer_done|]. cbn. answer_done.
Qed.

Lemma handlers_write_own_table_witness :
  fixed_tables_kept store_two_reactions
    (dispatch sample_externals visitor_unreacts store_two_reactions).2 ∧
  other_resources_kept visitor_unreacts store_two_reactions
    (dispatch sample_externals visitor_unreacts store_two_reactions).2 ∧
  (is_create visitor_unreacts = false →
   public_members
     (dispatch sample_externals visitor_unreacts store_two_reactions).2
   = public_members store_two_reactions).
Proof.
  exact (handlers_write_own_table sample_externals visitor_unreacts
           store_two_reactions _ _ (surjective_pairing _)).
Defined.

(** X4: a request that is answered with 400, because the capability is
    off or because the payload does not validate, has written nothing
    and emitted nothing. *)
Theorem bad_request_writes_nothing (E : Externals) (a : Action)
    (s s' : Store) (resp : Response) :
  dispatch E a s = (inr resp, s') →
  status resp = HTTP_400_BAD_REQUEST →
  s' = s.
Proof.
  intros Hd H400. by destruct (dispatch_answer E a s resp s' Hd) as [[_ ?]|[? _]].
Qed.

Lemma bad_request_writes_nothing_witness :
  (dispatch sample_externals
     (CommentCreate edit_request "acme" 3%positive 5%positive)
     store_flags_off).2 = store_flags_off.
Proof.
  apply (bad_request_writes_nothing sample_externals
           (CommentCreate edit_request "acme" 3%positive 5%positive)
           store_flags_off _
           (error_response "Comments are not enabled for this project"
              HTTP_400_BAD_REQUEST)).
  - vm_compute. reflexivity.
  - reflexivity.
Defined.

(** X5: a request that is answered with anything but 400 has made
    exactly one [issue_activity.delay] call: actor the requester,
    project the one of the path, epoch the time of the request;
    [current_instance] is empty for a create and filled for an update
    or a delete. *)
Theorem answered_mutation_emits_one_event (E : Externals) (a : Action)
    (s s' : Store) (resp : Response) :
  dispatch E a s = (inr resp, s') →
  status resp ≠ HTTP_400_BAD_REQUEST →
  ∃ ev, delayed s' = delayed s ++ [ev] ∧
        ev_actor_id ev = pretty (user (action_request a)) ∧
        ev_project_id ev = pretty (action_project a) ∧
        ev_epoch ev = now (action_request a) ∧
        (is_create a = true → ev_current_instance ev = None) ∧
        (is_create a = false → is_Some (ev_current_instance ev)).
Proof.
  intros Hd Hne. by destruct (dispatch_answer E a s resp s' Hd) as [[? _]|[_ ?]].
Qed.

Lemma answered_mutation_emits_one_event_witness :
  ∃ ev, delayed after_first_vote = delayed empty_store ++ [ev] ∧
        ev_actor_id ev = "7" ∧ ev_project_id ev = "3" ∧ ev_epoch ev = 100 ∧
        (is_create first_vote = true → ev_current_instance ev = None) ∧
        (is_create first_vote = false → is_Some (ev_current_instance ev)).
Proof.
  apply (answered_mutation_emits_one_event sample_externals first_vote
           empty_store after_first_vote first_vote_response).
  - vm_compute. reflexivity.
  - vm_compute. discriminate.
Defined.

(** * The public-member table over time *)

(** X6: no request removes or changes a [ProjectPublicMember] row; a
    request adds at most one; and a request of an active formal member
    of the project adds none. *)
Theorem public_members_only_grow (E : Externals) (a : Action) (s s' : Store)
    (r : exn + Response) :
  dispatch E a s = (r, s') →
  public_members s ⊆ public_members s' ∧
  (size (public_members s') ≤ S (size (public_members s)))%nat ∧
  (active_member s (action_project a) (user (action_request a)) →
   public_members s' = public_members s).
Proof.
  intros Hd. destruct (is_create a) eqn:Hc.
  - apply create_registration in Hd; [|done].
    destruct Hd as [_ [(-> & _)|(Hn & _ & -> & _)]].
    + split; [done|]. split; [lia|done].
    + split; [apply insert_subseteq, fresh_lookup_None|].
      split; [|done].
      rewrite map_size_insert_None by apply fresh_lookup_None. lia.
  - apply dispatch_frame in Hd as (_ & _ & Hsame). rewrite Hsame by done.
    split; [done|]. split; [lia|done].
Qed.

Lemma public_members_only_grow_witness :
  public_members empty_store ⊆ public_members after_first_vote ∧
  (size (public_members after_first_vote)
   ≤ S (size (public_members empty_store)))%nat ∧
  (active_member empty_store 3%positive 7%positive →
   public_members after_first_vote = public_members empty_store).
Proof.
  exact (public_members_only_grow sample_externals first_vote empty_store
           _ _ (surjective_pairing _)).
Defined.

(** * Create, then list *)

(** X7: a comment that was created with a 201 is stored as EXTERNAL
    under the requester's name and a fresh key, and the comment list of
    the same path returns it to any caller, signed in or not, provided
    the project lies in the workspace of the path and the filter
    backends let every row through. *)
Theorem created_comment_is_listed (E : Externals) (rq : Request)
    (slug : string) (project_id issue_id : pk) (uid : option pk)
    (s s' : Store) (resp : Response) :
  project_workspace E project_id = slug →
  (∀ kv, comment_filter_backends E kv = true) →
  comment_create E rq slug project_id issue_id s = (inr resp, s') →
  status resp = HTTP_201_CREATED →
  ∃ k c rows is_member,
    body resp = Some (IssueCommentSerializer_data k c) ∧
    ic_access c = "EXTERNAL" ∧ ic_actor c = user rq ∧
    comments s !! k = None ∧ comments s' !! k = Some c ∧
    comment_get_queryset E uid slug project_id issue_id s' = (inr rows, s') ∧
    (k, c, is_member) ∈ rows.
Proof.
  intros Hws Hfb. unfold comment_create. unfold_M.
  step_board; [done|].
  destruct (pdb_comments b) eqn:Hcap; cbn; [|by intros [= <- <-]].
  destruct (comment_is_valid E false (data rq)) as [errors|v];
    [by intros [= <- <-]|].
  step_track; cbn; intros [= <- <-]; intros _.
  all: eexists _, _, _, _.
  all: split; [reflexivity|]; split; [reflexivity|]; split; [reflexivity|].
  all: split; [apply fresh_lookup_None|].
  all: split; [cbn; apply lookup_insert_eq|].
  all: unfold comment_get_queryset, try_except_DoesNotExist; unfold_M.
  all: match goal with
       | Hb : published _ ?sl ?pr ?b0
         |- context [get_project_deploy_board ?sl ?pr ?s1] =>
           destruct (get_board_published s1 sl pr b0 Hb) as [kb' ->]
       end.
  all: rewrite Hcap; cbn.
  all: split; [reflexivity|].
  all: unfold order_by_asc; rewrite merge_sort_Permutation.
  all: apply list_elem_of_fmap; eexists (_, _); split; [reflexivity|].
  all: apply list_elem_of_filter; split; [apply Hfb|].
  all: apply elem_of_map_to_list, map_lookup_filter_Some.
  all: split; [cbn; apply lookup_insert_eq|].
  all: cbn; rewrite Hws, !bool_decide_eq_true_2 by done; done.
Qed.

Lemma created_comment_is_listed_witness :
  ∃ k c rows is_member,
    body (match (comment_create sample_externals edit_request "acme"
                   3%positive 5%positive store_open).1 with
          | inr resp => resp
          | inl _ => error_response "" HTTP_400_BAD_REQUEST
          end) = Some (IssueCommentSerializer_data k c) ∧
    ic_access c = "EXTERNAL" ∧ ic_actor c = 7%positive ∧
    comments store_open !! k = None ∧
    comments (comment_create sample_externals edit_request "acme"
                3%positive 5%positive store_open).2 !! k = Some c ∧
    comment_get_queryset sample_externals None "acme" 3%positive 5%positive
      (comment_create sample_externals edit_request "acme" 3%positive
         5%positive store_open).2
    = (inr rows,
       (comment_create sample_externals edit_request "acme" 3%positive
          5%positive store_open).2) ∧
    (k, c, is_member) ∈ rows.
Proof.
  apply (created_comment_is_listed sample_externals edit_request "acme"
           3%positive 5%positive None store_open).
  - reflexivity.
  - done.
  - vm_compute. reflexivity.
  - vm_compute. reflexivity.
Defined.

(** * What the lists return *)

Lemma order_by_asc_sorted {A} (key : A → Z) (l : list A) :
  StronglySorted (λ x y, key x ≤ key y) (order_by_asc key l).
Proof.
  unfold order_by_asc. apply StronglySorted_merge_sort.
  - intros x y z. lia.
  - intros x y. lia.
Qed.

Lemma order_by_desc_sorted {A} (key : A → Z) (l : list A) :
  StronglySorted (λ x y, key y ≤ key x) (order_by_desc key l).
Proof.
  unfold order_by_desc. apply StronglySorted_merge_sort.
  - intros x y z. lia.
  - intros x y. lia.
Qed.

(** X8: the comment list never changes the store; it comes oldest
    first; every comment in it is a stored EXTERNAL comment of the issue
    in the workspace of the path; and the [is_member] mark is set only
    for a signed-in caller who is an active member of the project. *)
Theorem comment_list_scope_and_order (E : Externals) (uid : option pk)
    (slug : string) (project_id issue_id : pk) (s s' : Store)
    (rows : list (pk * IssueComment * bool)) :
  comment_get_queryset E uid slug project_id issue_id s = (inr rows, s') →
  s' = s ∧
  StronglySorted (λ x y, ic_created_at x.1.2 ≤ ic_created_at y.1.2) rows ∧
  ∀ k c is_member, (k, c, is_member) ∈ rows →
    comments s !! k = Some c ∧ ic_workspace c = slug ∧
    ic_issue c = issue_id ∧ ic_access c = "EXTERNAL" ∧
    (is_member = true →
     ∃ u, uid = Some u ∧ active_member s project_id u).
Proof.
  unfold comment_get_queryset, try_except_DoesNotExist. unfold_M.
  step_board.
  { destruct e as [m|m]; [|done]. destruct Hb as [-> _]. cbn.
    intros [= <- <-]. split; [done|]. split; [constructor|].
    intros k c m Hin. by apply elem_of_nil in Hin. }
  destruct (pdb_comments b); cbn.
  2:{ intros [= <- <-]. split; [done|]. split; [constructor|].
      intros k c m Hin. by apply elem_of_nil in Hin. }
  intros [= <- <-]. split; [done|]. split; [apply order_by_asc_sorted|].
  intros k c m Hin. unfold order_by_asc in Hin.
  rewrite merge_sort_Permutation in Hin.
  apply list_elem_of_fmap in Hin as ([k' c'] & [= -> -> ->] & Hin).
  apply list_elem_of_filter in Hin as [_ Hin].
  apply elem_of_map_to_list, map_lookup_filter_Some in Hin as [Hk HP].
  split_lookup HP. repeat split; try done.
  intros Hm. apply bool_decide_eq_true, filter_nonempty_iff in Hm
    as (km & mrow & Hkm & HPm).
  split_lookup HPm. exists (pm_member mrow). split; [done|].
  by exists km, mrow.
Qed.

Lemma comment_list_scope_and_order_witness :
  store_with_comment = store_with_comment ∧
  StronglySorted (λ x y : pk * IssueComment * bool,
                    ic_created_at x.1.2 ≤ ic_created_at y.1.2)
    [(1%positive, comment_with "old", false)] ∧
  ∀ k c is_member,
    (k, c, is_member) ∈ [(1%positive, comment_with "old", false)] →
    comments store_with_comment !! k = Some c ∧ ic_workspace c = "acme" ∧
    ic_issue c = 5%positive ∧ ic_access c = "EXTERNAL" ∧
    (is_member = true →
     ∃ u, None = Some u ∧ active_member store_with_comment 3%positive u).
Proof.
  apply (comment_list_scope_and_order sample_externals None "acme"
           3%positive 5%positive store_with_comment store_with_comment).
  vm_compute. reflexivity.
Defined.

(** X9: the list of the reactions on an issue never changes the store;
    it comes newest first; and every reaction in it is a stored reaction
    on that issue, in the project and the workspace of the path. *)
Theorem reaction_list_scope_and_order (slug : string)
    (project_id issue_id : pk) (s s' : Store)
    (rows : list (pk * IssueReaction)) :
  issue_reaction_get_queryset slug project_id issue_id s = (inr rows, s') →
  s' = s ∧
  StronglySorted (λ x y, ir_created_at y.2 ≤ ir_created_at x.2) rows ∧
  ∀ k r, (k, r) ∈ rows →
    issue_reactions s !! k = Some r ∧ ir_workspace r = slug ∧
    ir_project r = project_id ∧ ir_issue r = issue_id.
Proof.
  unfold issue_reaction_get_queryset, try_except_DoesNotExist. unfold_M.
  step_board.
  { destruct e as [m|m]; [|done]. destruct Hb as [-> _]. cbn.
    intros [= <- <-]. split; [done|]. split; [constructor|].
    intros k r Hin. by apply elem_of_nil in Hin. }
  destruct (pdb_reactions b); cbn.
  2:{ intros [= <- <-]. split; [done|]. split; [constructor|].
      intros k r Hin. by apply elem_of_nil in Hin. }
  intros [= <- <-]. split; [done|]. split; [apply order_by_desc_sorted|].
  intros k r Hin. unfold order_by_desc in Hin.
  rewrite merge_sort_Permutation in Hin.
  apply elem_of_map_to_list, map_lookup_filter_Some in Hin as [Hk HP].
  split_lookup HP. done.
Qed.

Lemma reaction_list_scope_and_order_witness :
  store_two_reactions = store_two_reactions ∧
  StronglySorted (λ x y : pk * IssueReaction,
                    ir_created_at y.2 ≤ ir_created_at x.2)
    [(2%positive, plus_one 8%positive 20);
     (1%positive, plus_one 7%positive 10)] ∧
  ∀ k r,
    (k, r) ∈ [(2%positive, plus_one 8%positive 20);
              (1%positive, plus_one 7%positive 10)] →
    issue_reactions store_two_reactions !! k = Some r ∧
    ir_workspace r = "acme" ∧ ir_project r = 3%positive ∧
    ir_issue r = 5%positive.
Proof.
  apply (reaction_list_scope_and_order "acme" 3%positive 5%positive
           store_two_reactions store_two_reactions).
  vm_compute. reflexivity.
Defined.

(** * Deleting twice *)

(** The row lookup of a destroy handler finds nothing once the row it
    found was deleted. *)
Lemma get_after_delete {A} (T : Table A) (P : pk * A → bool) (t : gmap pk A)
    (k : pk) (row : A) :
  filter (λ kv, P kv = true) t = {[k := row]} →
  filter (λ kv, P kv = true) (delete k t) = ∅.
Proof. intros H. by rewrite map_filter_delete, H, delete_singleton_eq. Qed.

Ltac board_again :=
  match goal with
  | Hb : published _ ?sl ?pr ?b0
    |- context [get_project_deploy_board ?sl ?pr ?s1] =>
      let kb' := fresh "kb" in
      destruct (get_board_published s1 sl pr b0 Hb) as [kb' ->]
  end.

(** X10: a delete that was answered with 204 cannot be repeated: the
    same request on the resulting store raises [DoesNotExist] for the
    model and writes nothing. *)
Theorem second_destroy_not_found (E : Externals) (a : Action)
    (s s1 : Store) (resp : Response) :
  is_destroy a = true →
  dispatch E a s = (inr resp, s1) →
  status resp = HTTP_204_NO_CONTENT →
  dispatch E a s1 =
  (inl (DoesNotExist (resource_model (action_resource a))), s1).
Proof.
  intros Hk.
  destruct a as [| |rq slug p i k| |rq slug p i c| |rq slug p c r0
                 | |rq slug p i]; try done; clear Hk;
    cbn [dispatch action_resource resource_model];
    unfold comment_destroy, issue_reaction_destroy,
      comment_reaction_destroy, vote_destroy; unfold_M.
  - step_board; [done|].
    destruct (pdb_comments b) eqn:Hcap; cbn; [|by intros [= <- <-]].
    step_get; [done|]. cbn. intros [= <- <-] _.
    board_again. rewrite Hcap. cbn.
    rewrite (objects_get_none IssueComments); [done|].
    by eapply (get_after_delete IssueComments).
  - step_board; [done|].
    destruct (pdb_reactions b) eqn:Hcap; cbn; [|by intros [= <- <-]].
    step_get; [done|]. cbn. intros [= <- <-] _.
    board_again. rewrite Hcap. cbn.
    rewrite (objects_get_none IssueReactions); [done|].
    by eapply (get_after_delete IssueReactions).
  - step_board; [done|].
    destruct (pdb_reactions b) eqn:Hcap; cbn; [|by intros [= <- <-]].
    step_get; [done|]. cbn. intros [= <- <-] _.
    board_again. rewrite Hcap. cbn.
    rewrite (objects_get_none CommentReactions); [done|].
    by eapply (get_after_delete CommentReactions).
  - step_get; [done|]. cbn. intros [= <- <-] _.
    rewrite (objects_get_none IssueVotes); [done|].
    by eapply (get_after_delete IssueVotes).
Qed.

Lemma second_destroy_not_found_witness :
  dispatch sample_externals visitor_unreacts
    (dispatch sample_externals visitor_unreacts store_two_reactions).2
  = (inl (DoesNotExist MIssueReaction),
     (dispatch sample_externals visitor_unreacts store_two_reactions).2).
Proof.
  apply (second_destroy_not_found sample_externals visitor_unreacts
           store_two_reactions _
           {| body := None; status := HTTP_204_NO_CONTENT |}).
  - reflexivity.
  - vm_compute. reflexivity.
  - reflexivity.
Defined.

(** * Vote, then withdraw *)

(** X11: when the actor has no vote on the issue, the project lies in
    the workspace of the path and the actor has at most one
    public-member row, a vote create with an integer vote (or none)
    followed by a vote delete of the same actor on the same path answers
    201 and then 204, and the vote table is again what it was before the
    two requests. *)
Theorem vote_create_then_destroy (E : Externals) (rq rq' : Request)
    (slug : string) (project_id issue_id : pk) (s : Store) (z : Z) :
  user rq' = user rq →
  integer_vote rq z →
  project_workspace E project_id = slug →
  vote_rows s issue_id (user rq) = ∅ →
  (size (public_rows s project_id (user rq)) ≤ 1)%nat →
  ∃ resp1 s1 resp2 s2,
    vote_create E rq slug project_id issue_id s = (inr resp1, s1) ∧
    status resp1 = HTTP_201_CREATED ∧
    vote_destroy rq' slug project_id issue_id s1 = (inr resp2, s2) ∧
    status resp2 = HTTP_204_NO_CONTENT ∧
    votes s2 = votes s.
Proof.
  intros Hu _ Hws Hnone Hpub.
  assert (Hother : ∀ k v, votes s !! k = Some v →
                          ¬ (iv_issue v = issue_id ∧ iv_actor v = user rq)).
  { intros k v Hk. by apply (filter_empty_inv _ _ k v Hnone Hk). }
  unfold vote_create. unfold_M.
  rewrite objects_get_or_create_none.
  2:{ apply filter_empty_intro. intros k v Hk HP.
      apply vote_key_true in HP as (Ha & _ & Hi).
      by apply (Hother k v Hk). }
  cbn.
  match goal with |- context [track_public_member rq project_id ?s0] =>
    destruct (track_public_member rq project_id s0) as [res s2] eqn:Ht;
    apply track_inv in Ht;
    destruct Ht as [(-> & -> & _)|[(-> & -> & _)|(_ & _ & _ & H2)]]
  end.
  3:{ unfold public_rows in *. cbn in H2. lia. }
  all: cbn; eexists _, _, _, _.
  all: split; [reflexivity|]; split; [reflexivity|].
  all: unfold vote_destroy; unfold_M.
  all: match goal with |- context [objects_get IssueVotes ?P ?s1] =>
         rewrite (objects_get_one IssueVotes P s1 (fresh (dom (votes s)))
           (set_vote (default (JInt 1) (data rq !! "vote"))
              {| iv_workspace := project_workspace E project_id;
                 iv_project := project_id; iv_issue := issue_id;
                 iv_actor := user rq; iv_vote := issue_vote_default E |}))
       end.
  1,3: cbn; split; [reflexivity|]; split; [reflexivity|];
       by rewrite delete_insert_eq, delete_insert_id
         by apply fresh_lookup_None.
  all: unfold objects_filter; cbn; apply filter_singleton_intro.
  all: try apply lookup_insert_eq.
  all: try (cbn; rewrite Hws, Hu, !bool_decide_eq_true_2 by done; done).
  all: intros k' v' Hk' HP; split_lookup HP.
  all: destruct (decide (k' = fresh (dom (votes s)))) as [|Hne]; [done|].
  all: rewrite !lookup_insert_ne in Hk' by done.
  all: destruct (Hother k' v' Hk'); split; congruence.
Qed.

Lemma vote_create_then_destroy_witness :
  ∃ resp1 s1 resp2 s2,
    vote_create sample_externals (visitor_vote 1) "acme" 3%positive
      5%positive empty_store = (inr resp1, s1) ∧
    status resp1 = HTTP_201_CREATED ∧
    vote_destroy bare_request "acme" 3%positive 5%positive s1
    = (inr resp2, s2) ∧
    status resp2 = HTTP_204_NO_CONTENT ∧
    votes s2 = votes empty_store.
Proof.
  apply (vote_create_then_destroy sample_externals (visitor_vote 1)
           bare_request "acme" 3%positive 5%positive empty_store 1).
  - reflexivity.
  - split; [lia|]. left. reflexivity.
  - reflexivity.
  - reflexivity.
  - vm_compute. lia.
Defined.

(** * How a comment is addressed *)

(** X12: a comment update looks the comment up by workspace, primary
    key and author only. Through the path of any published project of
    the workspace that has comments switched on, the author's valid
    update answers 200 and merges the validated fields into the
    comment, whatever project and issue the comment belongs to; a
    delete through a path whose project is not the comment's raises
    [IssueComment.DoesNotExist] and writes nothing. *)
Theorem comment_update_ignores_project_of_path (E : Externals)
    (rq : Request) (slug : string) (project_id issue_id k : pk) (s : Store)
    (c : IssueComment) (v : jobject) :
  gate_passes SComment s slug project_id →
  comments s !! k = Some c →
  ic_workspace c = slug →
  ic_actor c = user rq →
  comment_is_valid E true (data rq) = inr v →
  (∃ resp s' c',
     comment_partial_update E rq slug project_id issue_id k s = (inr resp, s') ∧
     status resp = HTTP_200_OK ∧
     comments s' = <[k := c']> (comments s) ∧
     ic_attrs c' = v ∪ ic_attrs c ∧
     ic_project c' = ic_project c ∧ ic_issue c' = ic_issue c ∧
     ic_actor c' = ic_actor c ∧ ic_access c' = ic_access c) ∧
  (ic_project c ≠ project_id →
   comment_destroy rq slug project_id issue_id k s =
   (inl (DoesNotExist MIssueComment), s)).
Proof.
  intros (b & Hpub & Hcap) Hk Hws Ha Hv.
  apply get_board_published in Hpub as [kb Hget]. cbn in Hcap. split.
  - unfold comment_partial_update. unfold_M. rewrite Hget, Hcap. cbn.
    rewrite (objects_get_one IssueComments _ _ k c).
    + rewrite Hv. cbn. by eexists _, _, _.
    + unfold objects_filter. apply filter_singleton_intro; cbn.
      * done.
      * by rewrite !bool_decide_eq_true_2.
      * intros k' c' _ HP. by split_lookup HP.
  - intros Hp. unfold comment_destroy. unfold_M. rewrite Hget, Hcap. cbn.
    rewrite (objects_get_none IssueComments); [done|].
    apply filter_empty_intro. intros k' c' Hk' HP. split_lookup HP. subst.
    cbn in Hk'. rewrite Hk in Hk'. by injection Hk' as <-.
Qed.

Lemma comment_update_ignores_project_of_path_witness :
  (∃ resp s' c',
     comment_partial_update sample_externals edit_request "acme" 3%positive
       5%positive 1%positive store_foreign_comment = (inr resp, s') ∧
     status resp = HTTP_200_OK ∧
     comments s' = <[1%positive := c']> (comments store_foreign_comment) ∧
     ic_attrs c' = {[ "comment_html" := JStr "new" ]}
                   ∪ ic_attrs comment_elsewhere ∧
     ic_project c' = 4%positive ∧ ic_issue c' = 9%positive ∧
     ic_actor c' = 7%positive ∧ ic_access c' = "EXTERNAL") ∧
  comment_destroy edit_request "acme" 3%positive 5%positive 1%positive
    store_foreign_comment
  = (inl (DoesNotExist MIssueComment), store_foreign_comment).
Proof.
  destruct (comment_update_ignores_project_of_path sample_externals
              edit_request "acme" 3%positive 5%positive 1%positive
              store_foreign_comment comment_elsewhere
              {[ "comment_html" := JStr "new" ]}) as [Hupdate Hdestroy].
  - exists (board true true true).
    split; [by apply with_board_published | reflexivity].
  - reflexivity.
  - reflexivity.
  - reflexivity.
  - reflexivity.
  - split; [exact Hupdate|]. apply Hdestroy. discriminate.
Defined.

(** * Retrieve *)

(** X13: the retrieve endpoint never writes and never raises
    [MultipleObjectsReturned]: it answers 200 with the serialized issue
    when the issue with that primary key lies in the workspace and the
    project of the path, and raises [Issue.DoesNotExist] otherwise. *)
Theorem retrieve_outcomes (slug : string) (project_id issue_id : pk)
    (s s' : Store) (r : exn + Response) :
  issue_retrieve slug project_id issue_id s = (r, s') →
  s' = s ∧
  ((∃ i, issues s !! issue_id = Some i ∧ i_workspace i = slug ∧
         i_project i = project_id ∧
         r = inr {| body := Some (IssuePublicSerializer_data issue_id i);
                    status := HTTP_200_OK |}) ∨
   (r = inl (DoesNotExist MIssue) ∧
    ∀ i, issues s !! issue_id = Some i →
         ¬ (i_workspace i = slug ∧ i_project i = project_id))).
Proof.
  unfold issue_retrieve. unfold_M.
  destruct (issues s !! issue_id) as [i|] eqn:Hi.
  - destruct (decide (i_workspace i = slug ∧ i_project i = project_id))
      as [[Hw Hp]|Hn].
    + rewrite (objects_get_one Issues _ _ issue_id i).
      * intros [= <- <-]. split; [done|]. left. by exists i.
      * unfold objects_filter. apply filter_singleton_intro; cbn.
        -- done.
        -- by rewrite !bool_decide_eq_true_2.
        -- intros k' i' _ HP. by split_lookup HP.
    + rewrite (objects_get_none Issues).
      * intros [= <- <-]. split; [done|]. right. split; [done|].
        by intros i' [= <-].
      * apply filter_empty_intro. intros k' i' Hk' HP. split_lookup HP.
        subst. cbn in Hk'. rewrite Hi in Hk'. injection Hk' as <-.
        by apply Hn.
  - rewrite (objects_get_none Issues).
    + intros [= <- <-]. split; [done|]. right. by split.
    + apply filter_empty_intro. intros k' i' Hk' HP. split_lookup HP.
      subst. cbn in Hk'. by rewrite Hi in Hk'.
Qed.

Lemma retrieve_outcomes_witness :
  (issue_retrieve "acme" 3%positive 6%positive store_unpublished).2
  = store_unpublished ∧
  ((∃ i, issues store_unpublished !! 6%positive = Some i ∧
         i_workspace i = "acme" ∧ i_project i = 3%positive ∧
         (issue_retrieve "acme" 3%positive 6%positive store_unpublished).1
         = inr {| body := Some (IssuePublicSerializer_data 6%positive i);
                  status := HTTP_200_OK |}) ∨
   ((issue_retrieve "acme" 3%positive 6%positive store_unpublished).1
    = inl (DoesNotExist MIssue) ∧
    ∀ i, issues store_unpublished !! 6%positive = Some i →
         ¬ (i_workspace i = "acme" ∧ i_project i = 3%positive))).
Proof.
  exact (retrieve_outcomes "acme" 3%positive 6%positive store_unpublished
           _ _ (surjective_pairing _)).
Defined.

(** * The listing endpoint, continued *)

(** X14: the listing answers 404 "Project is not published" exactly
    when no deploy board row carries the pair; several rows for one
    pair count as published. *)
Theorem listing_not_published_iff (L : ListingExternals)
    (GET : gmap string string) (slug : string) (project_id : pk) (s : Store) :
  project_issues_get L GET slug project_id s =
  NotPublished (error_response "Project is not published" HTTP_404_NOT_FOUND)
  ↔ unpublished s slug project_id.
Proof.
  unfold project_issues_get.
  destruct (bool_decide _) eqn:Hex; cbn.
  - apply bool_decide_eq_true, filter_nonempty_iff in Hex
      as (k & b & Hk & HP). cbn in HP. apply board_lookup_true in HP.
    split.
    + by destruct (GET !! "group_by") as [[|]|].
    + intros Hun. by destruct (Hun k b Hk).
  - split; [|done]. intros _ k b Hk Hb.
    apply bool_decide_eq_false in Hex. apply Hex.
    apply filter_nonempty_iff. exists k, b. split; [done|].
    cbn. by apply board_lookup_true.
Qed.

(** X15: the listing is grouped exactly when [group_by] is present and
    not the empty string; a grouped listing is paginated with the
    count filter, a flat one without. *)
Theorem listing_grouping (L : ListingExternals) (GET : gmap string string)
    (slug : string) (project_id : pk) (s : Store) (queryset : list IssueRow)
    (field : option string) (count_filter : option (Issue → bool)) :
  project_issues_get L GET slug project_id s =
  Paginate queryset field count_filter →
  (field = None ↔ GET !! "group_by" = None ∨ GET !! "group_by" = Some "") ∧
  (∀ f, field = Some f →
        GET !! "group_by" = Some f ∧ f ≠ "" ∧
        count_filter = Some grouped_count_filter) ∧
  (field = None → count_filter = None).
Proof.
  unfold project_issues_get. destruct (negb _); [done|]. cbn.
  destruct (GET !! "group_by") as [[|a f]|]; intros [= <- <- <-].
  - split; [by split; auto|]. by split.
  - split; [split; [done|by intros [|]]|]. split; [|done].
    by intros f' [= <-].
  - split; [by split; auto|]. by split.
Qed.

Lemma listing_grouping_witness :
  (Some "state" = None ↔
   grouped_params !! "group_by" = None ∨
   grouped_params !! "group_by" = Some "") ∧
  (∀ f, Some "state" = Some f →
        grouped_params !! "group_by" = Some f ∧ f ≠ "" ∧
        Some grouped_count_filter = Some grouped_count_filter) ∧
  (Some "state" = None → Some grouped_count_filter = None).
Proof.
  apply (listing_grouping sample_listing grouped_params "acme" 3%positive
           store_published
           [bare_row (5%positive, draft_issue);
            bare_row (6%positive, foreign_issue)]).
  vm_compute. reflexivity.
Defined.

(** X16: every draft issue of the project in the workspace is a row of
    the queryset the listing composes, and each of its three counters is
    zero, not absent, when the issue has no link, no attachment or no
    sub-issue. *)
Theorem composed_queryset_complete (L : ListingExternals) (slug : string)
    (project_id : pk) (s : Store) (k : pk) (i : Issue) :
  issues s !! k = Some i →
  i_project i = project_id →
  i_workspace i = slug →
  i_is_draft i = true →
  ∃ row,
    row ∈ composed_issue_queryset L slug project_id s ∧
    row_id row = k ∧ row_issue row = i ∧
    ((∀ kl l, issue_links s !! kl = Some l → il_issue l ≠ k) →
     link_count row = Some 0) ∧
    ((∀ ka a, issue_attachments s !! ka = Some a → ia_issue a ≠ k) →
     attachment_count row = Some 0) ∧
    ((∀ kc c, issues s !! kc = Some c → i_parent c ≠ Some k) →
     sub_issues_count row = Some 0).
Proof.
  intros Hk Hp Hw Hd. eexists. split.
  { unfold composed_issue_queryset. apply list_elem_of_fmap.
    exists (k, i). split; [reflexivity|].
    apply elem_of_map_to_list, map_lookup_filter_Some. split; [done|].
    cbn. by rewrite Hd, !bool_decide_eq_true_2. }
  cbn. split; [done|]. split; [done|]. unfold subquery_count.
  split; [|split]; intros Hnone; f_equal.
  - rewrite filter_empty_intro; [done|].
    intros kl l Hl HP. split_lookup HP. by apply (Hnone kl l).
  - rewrite filter_empty_intro; [done|].
    intros ka a Ha HP. split_lookup HP. by apply (Hnone ka a).
  - rewrite filter_empty_intro; [done|].
    intros kc c Hc HP. split_lookup HP. by apply (Hnone kc c).
Qed.

Lemma composed_queryset_complete_witness :
  ∃ row,
    row ∈ composed_issue_queryset sample_listing "acme" 3%positive
            store_published ∧
    row_id row = 5%positive ∧ row_issue row = draft_issue ∧
    ((∀ kl l, issue_links store_published !! kl = Some l →
              il_issue l ≠ 5%positive) → link_count row = Some 0) ∧
    ((∀ ka a, issue_attachments store_published !! ka = Some a →
              ia_issue a ≠ 5%positive) → attachment_count row = Some 0) ∧
    ((∀ kc c, issues store_published !! kc = Some c →
              i_parent c ≠ Some 5%positive) → sub_issues_count row = Some 0).
Proof.
  apply (composed_queryset_complete sample_listing "acme" 3%positive
           store_published 5%positive draft_issue); reflexivity.
Defined.

(** * React, then withdraw *)

(** X17: when the board lets reactions through, the project lies in the
    workspace of the path, the payload validates to a reaction code the
    actor has not yet left on the issue, and the actor has at most one
    public-member row, then creating the reaction and deleting it by its
    code answers 201 and then 204, and the reaction table is again what
    it was before the two requests. *)
Theorem reaction_create_then_destroy (E : Externals) (rq rq' : Request)
    (slug : string) (project_id issue_id : pk) (code : string) (s : Store) :
  user rq' = user rq →
  gate_passes SIssueReaction s slug project_id →
  project_workspace E project_id = slug →
  issue_reaction_is_valid E (data rq) = inr code →
  (∀ k r, issue_reactions s !! k = Some r →
          ¬ (ir_issue r = issue_id ∧ ir_reaction r = code ∧
             ir_actor r = user rq)) →
  (size (public_rows s project_id (user rq)) ≤ 1)%nat →
  ∃ resp1 s1 resp2 s2,
    issue_reaction_create E rq slug project_id issue_id s = (inr resp1, s1) ∧
    status resp1 = HTTP_201_CREATED ∧
    issue_reaction_destroy rq' slug project_id issue_id code s1
    = (inr resp2, s2) ∧
    status resp2 = HTTP_204_NO_CONTENT ∧
    issue_reactions s2 = issue_reactions s.
Proof.
  intros Hu (b & Hb & Hcap) Hws Hv Hother Hpub. cbn in Hcap.
  unfold issue_reaction_create. unfold_M.
  destruct (get_board_published s slug project_id b Hb) as [kb ->].
  rewrite Hcap, Hv. cbn.
  match goal with |- context [track_public_member rq project_id ?s0] =>
    destruct (track_public_member rq project_id s0) as [res s2] eqn:Ht;
    apply track_inv in Ht;
    destruct Ht as [(-> & -> & _)|[(-> & -> & _)|(_ & _ & _ & H2)]]
  end.
  3:{ unfold public_rows in *. cbn in H2. lia. }
  all: cbn; eexists _, _, _, _.
  all: split; [reflexivity|]; split; [reflexivity|].
  all: unfold issue_reaction_destroy; unfold_M.
  all: board_again; rewrite Hcap; cbn.
  all: match goal with |- context [objects_get IssueReactions ?P ?s1] =>
         rewrite (objects_get_one IssueReactions P s1
           (fresh (dom (issue_reactions s)))
           {| ir_workspace := project_workspace E project_id;
              ir_project := project_id; ir_issue := issue_id;
              ir_actor := user rq; ir_reaction := code;
              ir_created_at := now rq |})
       end.
  1,3: cbn; split; [reflexivity|]; split; [reflexivity|];
       by rewrite delete_insert_id by apply fresh_lookup_None.
  all: unfold objects_filter; cbn; apply filter_singleton_intro.
  all: try apply lookup_insert_eq.
  all: try (cbn; rewrite Hws, Hu, !bool_decide_eq_true_2 by done; done).
  all: intros k' r' Hk' HP; split_lookup HP.
  all: destruct (decide (k' = fresh (dom (issue_reactions s)))) as [|Hne];
       [done|].
  all: rewrite !lookup_insert_ne in Hk' by done.
  all: destruct (Hother k' r' Hk'); repeat split; congruence.
Qed.

Lemma reaction_create_then_destroy_witness :
  ∃ resp1 s1 resp2 s2,
    issue_reaction_create sample_externals react_request "acme" 3%positive
      5%positive store_open = (inr resp1, s1) ∧
    status resp1 = HTTP_201_CREATED ∧
    issue_reaction_destroy bare_request "acme" 3%positive 5%positive "+1" s1
    = (inr resp2, s2) ∧
    status resp2 = HTTP_204_NO_CONTENT ∧
    issue_reactions s2 = issue_reactions store_open.
Proof.
  apply (reaction_create_then_destroy sample_externals react_request
           bare_request "acme" 3%positive 5%positive "+1" store_open).
  - reflexivity.
  - exists (board true true true).
    split; [by apply with_board_published | reflexivity].
  - reflexivity.
  - reflexivity.
  - intros k r Hk. cbn in Hk. by rewrite lookup_empty in Hk.
  - vm_compute. lia.
Defined.

(** * Who is on the roster *)

(** X18: after any create request that was answered with 201, the
    requester is an active formal member of the project or has exactly
    one [ProjectPublicMember] row on it. *)
Theorem creator_is_on_the_roster (E : Externals) (a : Action) (s s' : Store)
    (resp : Response) :
  is_create a = true →
  dispatch E a s = (inr resp, s') →
  status resp = HTTP_201_CREATED →
  active_member s' (action_project a) (user (action_request a)) ∨
  ∃ k row,
    public_rows s' (action_project a) (user (action_request a))
    = {[k := row]}.
Proof.
  intros Hc Hd H201. apply create_registration in Hd; [|done].
  destruct Hd as [Hpm [(Hsame & Hok & _)|(_ & He & Hins & _)]].
  - destruct (Hok resp eq_refl H201) as [Hm|(k & row & Hk)].
    + left. by apply (active_member_ext s' s).
    + right. exists k, row. by rewrite (public_rows_ext s' s).
  - right. eexists _, _. unfold public_rows in *. rewrite Hins.
    rewrite map_filter_insert_True by done. by rewrite He, insert_empty.
Qed.

Lemma creator_is_on_the_roster_witness :
  active_member after_first_vote 3%positive 7%positive ∨
  ∃ k row, public_rows after_first_vote 3%positive 7%positive = {[k := row]}.
Proof.
  apply (creator_is_on_the_roster sample_externals first_vote empty_store
           after_first_vote first_vote_response).
  - reflexivity.
  - vm_compute. reflexivity.
  - reflexivity.
Defined.
